(** * UNLOCODE organization-code pipeline (src/UNLOCODE.py)

    A shallow embedding of the four pipeline functions of [UNLOCODE.py]
    ([simulate_research_agent], [generate_company_abbreviation],
    [simulate_lookup_agent], [simulate_critic_agent]) and of their
    composition [lead_agent_orchestrate], together with the static table
    [UNLOCODE_DB].

    Modelling choices.
    - Python [str] values are [string]s (sequences of 8-bit characters).
      The string methods follow CPython on the ASCII range: [upper] maps
      [a-z] to [A-Z]; the whitespace of [split()] and [strip()] is
      TAB, LF, VT, FF, CR, FS, GS, RS, US and SPACE.  Characters above 127
      are kept as they are and are not whitespace; CPython uppercases
      some of them, a few into two characters, and takes some for
      whitespace or letters.  Statements that depend on this are made for
      [is_ascii] strings, where the model and the source agree.
    - A Python [dict] literal is an association list in insertion order,
      the order in which [.items()] yields it.
    - Subscripting ([words[i]], [w[0]]) raises [IndexError] out of range;
      functions that subscript return in the error monad [Res].
    - [st.info] and [time.sleep] only report progress and wait; they are
      left out.
    - [fetch_countries_from_unece] is modelled from the outcome of the
      request on: the page is given by its anchors, as the parser lists
      them.  The completion of the fetched list in the script is the
      function [fetched_countries]. *)

From Stdlib Require Import List Arith Lia Bool Ascii String Sorted.
From Stdlib Require OrdersEx.
Import ListNotations.
Open Scope string_scope.
Open Scope nat_scope.

(** ** Exceptions *)

Inductive exn : Type :=
| IndexError.

Inductive Res (A : Type) : Type :=
| Ok (a : A)
| Raise (e : exn).

Arguments Ok {A} a.
Arguments Raise {A} e.

Definition bind {A B : Type} (m : Res A) (k : A -> Res B) : Res B :=
  match m with
  | Ok a => k a
  | Raise e => Raise e
  end.

Notation "x <- m ;; k" := (bind m (fun x => k))
  (at level 61, m at next level, right associativity).

(** ** Python string and list primitives *)

Module Py.

(** [c.isspace()] for a character of the ASCII range. *)
Definition isspace (c : ascii) : bool :=
  let n := nat_of_ascii c in
  ((9 <=? n) && (n <=? 13)) || ((28 <=? n) && (n <=? 32)).

Definition islower (c : ascii) : bool :=
  let n := nat_of_ascii c in
  (97 <=? n) && (n <=? 122).

Definition upper_char (c : ascii) : ascii :=
  if islower c then ascii_of_nat (nat_of_ascii c - 32) else c.

(** [s.upper()] *)
Fixpoint upper (s : string) : string :=
  match s with
  | EmptyString => EmptyString
  | String c s' => String (upper_char c) (upper s')
  end.

(** [s.lstrip()] *)
Fixpoint lstrip (s : string) : string :=
  match s with
  | EmptyString => EmptyString
  | String c s' => if isspace c then lstrip s' else s
  end.

(** [s.rstrip()] *)
Fixpoint rstrip (s : string) : string :=
  match s with
  | EmptyString => EmptyString
  | String c s' =>
      match rstrip s' with
      | EmptyString => if isspace c then EmptyString else String c EmptyString
      | r => String c r
      end
  end.

(** [s.strip()] *)
Definition strip (s : string) : string := rstrip (lstrip s).

(** [s[:n]] *)
Fixpoint take (n : nat) (s : string) : string :=
  match n, s with
  | S n', String c s' => String c (take n' s')
  | _, _ => EmptyString
  end.

(** [s[n:]] *)
Fixpoint drop (n : nat) (s : string) : string :=
  match n, s with
  | S n', String _ s' => drop n' s'
  | _, _ => s
  end.

(** [s[-n:]] for [n > 0]: the last [n] characters, all of [s] when it is
    shorter. *)
Definition last_chars (n : nat) (s : string) : string :=
  drop (String.length s - n) s.

(** [s[0]], a one-character string. *)
Definition str_first (s : string) : Res string :=
  match s with
  | EmptyString => Raise IndexError
  | String c _ => Ok (String c EmptyString)
  end.

(** [l[i]] for [i >= 0]. *)
Definition list_get {A : Type} (l : list A) (i : nat) : Res A :=
  match nth_error l i with
  | Some a => Ok a
  | None => Raise IndexError
  end.

(** [s.replace(old, "")] for a one-character [old]. *)
Fixpoint remove_char (old : ascii) (s : string) : string :=
  match s with
  | EmptyString => EmptyString
  | String c s' =>
      if Ascii.eqb c old then remove_char old s' else String c (remove_char old s')
  end.

(** [sub in s] *)
Fixpoint contains (sub s : string) : bool :=
  prefix sub s
  || match s with
     | EmptyString => false
     | String _ s' => contains sub s'
     end.

(** [s.split()]: the maximal runs of non-whitespace characters, in order.
    [word] is the run being read. *)
Definition emit (word : string) (l : list string) : list string :=
  match word with
  | EmptyString => l
  | _ => word :: l
  end.

Fixpoint split_from (word s : string) : list string :=
  match s with
  | EmptyString => emit word []
  | String c s' =>
      if isspace c then emit word (split_from EmptyString s')
      else split_from (word ++ String c EmptyString) s'
  end.

Definition split (s : string) : list string := split_from EmptyString s.

(** [d.get(k, default)] on a dict given by its items. *)
Fixpoint dict_get {V : Type} (d : list (string * V)) (k : string) (default : V) : V :=
  match d with
  | [] => default
  | (k', v) :: d' => if String.eqb k' k then v else dict_get d' k default
  end.

(** [c.isalpha()] for a character of the ASCII range. *)
Definition isalpha (c : ascii) : bool :=
  let n := nat_of_ascii c in
  ((65 <=? n) && (n <=? 90)) || ((97 <=? n) && (n <=? 122)).

(** [all(p(ch) for ch in s)] *)
Fixpoint str_all (p : ascii -> bool) (s : string) : bool :=
  match s with
  | EmptyString => true
  | String c s' => p c && str_all p s'
  end.

(** [x in l] for a list of strings. *)
Definition list_in (x : string) (l : list string) : bool :=
  existsb (String.eqb x) l.

(** [sorted(list(set(l)))]: the distinct elements of [l] in increasing
    order.  The order in which the set lists its elements is not specified,
    and [sorted] makes the result independent of it; here the elements are
    put one by one at their place, an element already there being skipped. *)
Fixpoint insert_sorted (x : string) (l : list string) : list string :=
  match l with
  | [] => [x]
  | y :: l' =>
      match String.compare x y with
      | Lt => x :: l
      | Eq => l
      | Gt => y :: insert_sorted x l'
      end
  end.

Definition sorted_set (l : list string) : list string :=
  fold_right insert_sorted [] l.

End Py.

(** ** The simulated UNLOCODE database *)

Definition city_table : Type := list (string * string).
Definition directory : Type := list (string * city_table).

Definition UNLOCODE_DB : directory :=
  [ ("France",
      [ ("MARSEILLE", "FRMRS");
        ("MARSEILLE-EN-BEAUVAISIS", "FRMBE") ]);
    ("United States",
      [ ("NEW YORK", "USNYC");
        ("LOS ANGELES", "USLAX") ]);
    ("Germany",
      [ ("BERLIN", "DEBER") ]);
    ("China",
      [ ("BEIJING", "CNBJS");
        ("SHANGHAI", "CNSHA") ]) ].

(** ** Agent simulation functions *)

(** The test of the [for] loop of [simulate_research_agent]. *)
Definition key_matches (key city_upper : string) : bool :=
  String.eqb (Py.upper key) city_upper || Py.contains city_upper (Py.upper key).

(** The [for key, code in country_data.items()] loop with its [return code],
    followed by [return "UNK00"]. *)
Fixpoint scan_items (items : city_table) (city_upper : string) : string :=
  match items with
  | [] => "UNK00"
  | (key, code) :: rest =>
      if key_matches key city_upper then code else scan_items rest city_upper
  end.

(** [simulate_research_agent] over a given database. *)
Definition research_in (db : directory) (country city : string) : string :=
  let country_data := Py.dict_get db country [] in
  let city_upper := Py.strip (Py.upper city) in
  scan_items country_data city_upper.

Definition simulate_research_agent (country city : string) : string :=
  research_in UNLOCODE_DB country city.

Definition generate_company_abbreviation (company_name : string) : Res string :=
  let words := Py.split company_name in
  if 3 <=? List.length words then
    w0 <- Py.list_get words 0 ;;
    w1 <- Py.list_get words 1 ;;
    w2 <- Py.list_get words 2 ;;
    c <- Py.str_first w2 ;;
    Ok (Py.upper (Py.take 3 w0) ++ Py.upper (Py.take 3 w1) ++ Py.upper c)
  else if List.length words =? 2 then
    w0 <- Py.list_get words 0 ;;
    w1 <- Py.list_get words 1 ;;
    Ok (Py.upper (Py.take 3 w0) ++ Py.upper (Py.take 3 w1))
  else
    Ok (Py.upper (Py.take 6 (Py.remove_char " " company_name))).

(** The location segment chosen by [simulate_lookup_agent]. *)
Definition location_segment (unlocode : string) : string :=
  if 5 <=? String.length unlocode then Py.last_chars 3 unlocode else "UNK".

(** Returns [(org_code, company_abbr, location_code)]. *)
Definition simulate_lookup_agent (unlocode company_name : string)
  : Res (string * string * string) :=
  company_abbr <- generate_company_abbreviation company_name ;;
  let location_code := location_segment unlocode in
  let org_code := company_abbr ++ location_code in
  Ok (org_code, company_abbr, location_code).

Definition simulate_critic_agent (org_code : string) : string :=
  "Validated: The Organization Code '" ++ org_code
  ++ "' is correctly generated based on the UNLOCODE data.".

Module final_output.
Record t : Type := mk {
  country : string;
  city : string;
  company_name : string;
  unlocode : string;
  company_abbr : string;
  location_code : string;
  org_code : string;
  critique : string
}.
End final_output.

Definition lead_agent_orchestrate (country city company_name : string)
  : Res final_output.t :=
  let unlocode := simulate_research_agent country city in
  r <- simulate_lookup_agent unlocode company_name ;;
  let '(org_code, company_abbr, location_code) := r in
  let critique := simulate_critic_agent org_code in
  Ok (final_output.mk country (Py.upper city) company_name unlocode
        company_abbr location_code org_code critique).

(** ** The country list *)

(** An [<a>] tag of the fetched page: its [href] attribute, if it has one,
    and its text as [link.get_text(strip=True)] gives it. *)
Record anchor : Type := {
  href : option string;
  text : string
}.

(** What [requests.get] and the parser give: an exception, or a status code
    with the anchors of the page in document order. *)
Inductive http_outcome : Type :=
| RequestError
| Response (status_code : nat) (anchors : list anchor).

(** The filter [lambda x: x and "service.unece.org" in x] on an [href]. *)
Definition unece_href (x : option string) : bool :=
  match x with
  | None => false
  | Some h => negb (String.eqb h "") && Py.contains "service.unece.org" h
  end.

(** The test [text and all(ch.isalpha() or ch.isspace() for ch in text)]. *)
Definition country_like (t : string) : bool :=
  negb (String.eqb t "")
  && Py.str_all (fun ch => Py.isalpha ch || Py.isspace ch) t.

Definition fetch_countries_from_unece (outcome : http_outcome) : list string :=
  match outcome with
  | RequestError => []
  | Response status_code anchors =>
      if negb (status_code =? 200) then []
      else
        let country_links := filter (fun a => unece_href (href a)) anchors in
        let countries := filter country_like (map text country_links) in
        Py.sorted_set countries
  end.

(** The loop [for c in UNLOCODE_DB.keys(): if c not in fetched_countries:
    fetched_countries.append(c)]. *)
Definition append_missing (fetched keys : list string) : list string :=
  fold_left (fun acc c => if Py.list_in c acc then acc else (acc ++ [c])%list)
            keys fetched.

(** The options of the country select box: the value of the script's
    variable [fetched_countries] once the fetched list has been completed. *)
Definition fetched_countries (fetched : list string) : list string :=
  match fetched with
  | [] => map fst UNLOCODE_DB
  | _ => Py.sorted_set (append_missing fetched (map fst UNLOCODE_DB))
  end.

(** ** Notions used in the statements *)

(** Strings of whitespace, strings of blanks, strings without a lowercase
    letter. *)
Definition all_space (s : string) : bool := Py.str_all Py.isspace s.

Definition only_blanks (s : string) : bool :=
  Py.str_all (fun c => Ascii.eqb c " ") s.

(** Strings of the ASCII range, the range on which [Py.upper],
    [Py.isspace], [Py.isalpha] and the slices are those of the source, one
    character being one code point. *)
Definition is_ascii (s : string) : bool :=
  Py.str_all (fun c => nat_of_ascii c <? 128) s.

(** An anchor whose text and href are of the ASCII range. *)
Definition ascii_anchor (a : anchor) : bool :=
  is_ascii (text a)
  && match href a with
     | Some h => is_ascii h
     | None => true
     end.

Definition no_lower (s : string) : bool :=
  Py.str_all (fun c => negb (Py.islower c)) s.

Definition no_blank (s : string) : bool :=
  Py.str_all (fun c => negb (Ascii.eqb c " ")) s.

(** The word that a run under way will give: one if it is not empty. *)
Definition pending (word : string) : nat :=
  match word with
  | EmptyString => 0
  | _ => 1
  end.

(** Strictly increasing lists of strings. *)
Definition str_lt (a b : string) : Prop := String.compare a b = Lt.


Definition nonempty (w : string) : Prop := w <> "".

(** A word: a non-empty string without whitespace. *)
Fixpoint no_space (w : string) : bool :=
  match w with
  | EmptyString => true
  | String c w' => negb (Py.isspace c) && no_space w'
  end.

Definition is_word (w : string) : Prop := w <> "" /\ no_space w = true.

(** Every code stored in a database, in table order. *)
Definition stored_codes (db : directory) : list string :=
  flat_map (fun entry => map snd (snd entry)) db.

(** Case analysis on membership in a list given by its elements. *)
Ltac in_cases H :=
  simpl in H;
  repeat match type of H with
         | _ \/ _ => destruct H as [H|H]
         | False => destruct H
         end.

(** ** Lemmas on the string primitives *)

Section StringFacts.

Lemma length_append (a b : string) :
  String.length (a ++ b) = String.length a + String.length b.
Proof.
  induction a as [|c a IH]; simpl; [reflexivity | now rewrite IH].
Qed.

Lemma append_empty_r (a : string) : a ++ "" = a.
Proof.
  induction a as [|c a IH]; simpl; [reflexivity | now rewrite IH].
Qed.

Lemma append_assoc (a b c : string) : (a ++ b) ++ c = a ++ (b ++ c).
Proof.
  induction a as [|x a IH]; simpl; [reflexivity | now rewrite IH].
Qed.

Lemma length_upper (s : string) :
  String.length (Py.upper s) = String.length s.
Proof.
  induction s as [|c s IH]; simpl; [reflexivity | now rewrite IH].
Qed.

Lemma upper_append (a b : string) :
  Py.upper (a ++ b) = Py.upper a ++ Py.upper b.
Proof.
  induction a as [|c a IH]; simpl; [reflexivity | now rewrite IH].
Qed.

Lemma length_take (n : nat) (s : string) :
  String.length (Py.take n s) = Nat.min n (String.length s).
Proof.
  revert s; induction n as [|n IH]; intros [|c s]; simpl; auto.
Qed.

Lemma length_drop (n : nat) (s : string) :
  String.length (Py.drop n s) = String.length s - n.
Proof.
  revert s; induction n as [|n IH]; intros [|c s]; simpl; auto.
Qed.

Lemma length_last_chars (n : nat) (s : string) :
  n <= String.length s -> String.length (Py.last_chars n s) = n.
Proof.
  intros H. unfold Py.last_chars. rewrite length_drop. lia.
Qed.

Lemma isspace_not_blank (c : ascii) :
  Py.isspace c = false -> Ascii.eqb c " " = false.
Proof.
  intros H. destruct (Ascii.eqb_spec c " ") as [->|]; [|reflexivity].
  vm_compute in H. discriminate.
Qed.

Lemma str_first_take1 (w : string) :
  w <> "" -> Py.str_first w = Ok (Py.take 1 w).
Proof.
  destruct w as [|c w]; [congruence|]. intros _. reflexivity.
Qed.

End StringFacts.

(** ** Lemmas on [split] *)

Section SplitFacts.

Lemma emit_nonempty (w : string) (l : list string) :
  Forall nonempty l -> Forall nonempty (Py.emit w l).
Proof.
  intros H. destruct w as [|c w]; simpl; [assumption|].
  constructor; [discriminate | assumption].
Qed.

Lemma split_from_nonempty (s : string) :
  forall word, Forall nonempty (Py.split_from word s).
Proof.
  induction s as [|c s IH]; intros word; simpl.
  - apply emit_nonempty. constructor.
  - destruct (Py.isspace c).
    + apply emit_nonempty, IH.
    + apply IH.
Qed.

Lemma split_nonempty (s : string) : Forall nonempty (Py.split s).
Proof. apply split_from_nonempty. Qed.

(** A name with at least one word keeps a character when its blanks are
    removed. *)
Lemma split_from_some_char (s : string) :
  forall word, Py.split_from word s <> [] ->
               word <> "" \/ Py.remove_char " " s <> "".
Proof.
  induction s as [|c s IH]; intros word H; simpl in *.
  - left. intros ->. now apply H.
  - destruct (Py.isspace c) eqn:E.
    + destruct word as [|x word]; [|left; discriminate].
      simpl in H. destruct (IH _ H) as [F|F]; [congruence|].
      right. destruct (Ascii.eqb c " "); [assumption | discriminate].
    + right. rewrite (isspace_not_blank _ E). discriminate.
Qed.

Lemma split_some_char (s : string) :
  Py.split s <> [] -> 1 <= String.length (Py.remove_char " " s).
Proof.
  intros H. destruct (split_from_some_char s "" H) as [F|F]; [congruence|].
  destruct (Py.remove_char " " s); [congruence | simpl; lia].
Qed.

(** [split] undoes joining words with single blanks. *)
Lemma split_from_word (w : string) :
  forall word s, no_space w = true ->
                 Py.split_from word (w ++ s) = Py.split_from (word ++ w) s.
Proof.
  induction w as [|c w IH]; intros word s H; simpl in *.
  - now rewrite append_empty_r.
  - apply andb_true_iff in H as [Hc Hw].
    apply negb_true_iff in Hc. rewrite Hc.
    rewrite (IH _ _ Hw), append_assoc. reflexivity.
Qed.

Lemma split_concat_words (ws : list string) :
  Forall is_word ws -> Py.split (String.concat " " ws) = ws.
Proof.
  unfold Py.split. induction 1 as [|w ws [Hne Hns] Hws IH]; [reflexivity|].
  destruct ws as [|w' ws].
  - simpl. rewrite <- (append_empty_r w) at 1.
    rewrite (split_from_word w "" "" Hns). simpl.
    destruct w; [congruence | reflexivity].
  - change (String.concat " " (w :: w' :: ws))
      with (w ++ " " ++ String.concat " " (w' :: ws)).
    rewrite (split_from_word w "" _ Hns).
    change (Py.split_from ("" ++ w) (" " ++ String.concat " " (w' :: ws)))
      with (Py.emit w (Py.split_from "" (String.concat " " (w' :: ws)))).
    rewrite IH. destruct w; [congruence | reflexivity].
Qed.

End SplitFacts.

(** ** The abbreviation generator *)

Section Abbreviation.

(** The generator never raises; its value in closed form, by the number of
    words. *)
Lemma generate_closed_form (company_name : string) :
  generate_company_abbreviation company_name =
  Ok match Py.split company_name with
     | w1 :: w2 :: w3 :: _ =>
         Py.upper (Py.take 3 w1 ++ Py.take 3 w2 ++ Py.take 1 w3)
     | [w1; w2] => Py.upper (Py.take 3 w1 ++ Py.take 3 w2)
     | _ => Py.upper (Py.take 6 (Py.remove_char " " company_name))
     end.
Proof.
  unfold generate_company_abbreviation.
  pose proof (split_nonempty company_name) as Hne.
  destruct (Py.split company_name) as [|w1 [|w2 [|w3 rest]]]; try reflexivity.
  - simpl. now rewrite upper_append.
  - assert (Hw3 : w3 <> "").
    { exact (Forall_inv (Forall_inv_tail (Forall_inv_tail Hne))). }
    change (3 <=? List.length (w1 :: w2 :: w3 :: rest)) with true.
    cbv beta iota. unfold Py.list_get. simpl nth_error. cbv beta iota delta [bind].
    rewrite (str_first_take1 w3 Hw3). now rewrite !upper_append.
Qed.

Lemma generate_length (company_name : string) :
  exists abbr,
    generate_company_abbreviation company_name = Ok abbr /\
    Nat.min 3 (List.length (Py.split company_name)) <= String.length abbr /\
    String.length abbr
    <= (if 3 <=? List.length (Py.split company_name) then 7 else 6).
Proof.
  eexists. split; [apply generate_closed_form|].
  pose proof (split_nonempty company_name) as Hne.
  pose proof (split_some_char company_name) as Hch.
  destruct (Py.split company_name) as [|w1 [|w2 [|w3 rest]]].
  - rewrite length_upper, length_take. cbn [List.length Nat.leb]. lia.
  - rewrite length_upper, length_take. cbn [List.length Nat.leb].
    assert (1 <= String.length (Py.remove_char " " company_name))
      by (apply Hch; discriminate).
    lia.
  - pose proof (Forall_inv Hne) as H1.
    pose proof (Forall_inv (Forall_inv_tail Hne)) as H3.
    rewrite length_upper, length_append, !length_take.
    cbn [List.length Nat.leb].
    destruct w1; [now elim H1|]. destruct w2; [now elim H3|].
    cbn [String.length]. lia.
  - pose proof (Forall_inv Hne) as H1.
    pose proof (Forall_inv (Forall_inv_tail Hne)) as H3.
    pose proof (Forall_inv (Forall_inv_tail (Forall_inv_tail Hne))) as H5.
    rewrite length_upper, !length_append, !length_take.
    cbn [List.length Nat.leb].
    destruct w1; [now elim H1|]. destruct w2; [now elim H3|].
    destruct w3; [now elim H5|]. cbn [String.length]. lia.
Qed.

(** The rule read on the words themselves: for words joined by single
    blanks the abbreviation is built from those words. *)
Corollary generate_of_words (w1 w2 w3 : string) (rest : list string) :
  Forall is_word (w1 :: w2 :: w3 :: rest) ->
  generate_company_abbreviation (String.concat " " (w1 :: w2 :: w3 :: rest)) =
  Ok (Py.upper (Py.take 3 w1) ++ Py.upper (Py.take 3 w2)
      ++ Py.upper (Py.take 1 w3)).
Proof.
  intros H. rewrite generate_closed_form, (split_concat_words _ H).
  now rewrite !upper_append.
Qed.

End Abbreviation.




(** ** The location lookup *)

Section Research.

Lemma dict_get_in (db : directory) (country : string) :
  Py.dict_get db country [] = [] \/
  In (country, Py.dict_get db country []) db.
Proof.
  induction db as [|[k v] db IH]; simpl; [now left|].
  destruct (String.eqb_spec k country) as [->|_].
  - right. now left.
  - destruct IH as [IH|IH]; [now left | right; now right].
Qed.

Lemma dict_get_missing (db : directory) (country : string) :
  ~ In country (map fst db) -> Py.dict_get db country [] = [].
Proof.
  induction db as [|[k v] db IH]; simpl; intros H; [reflexivity|].
  destruct (String.eqb_spec k country) as [->|_].
  - elim H. now left.
  - apply IH. intros F. apply H. now right.
Qed.

Lemma scan_items_result (items : city_table) (city_upper : string) :
  scan_items items city_upper = "UNK00" \/
  In (scan_items items city_upper) (map snd items).
Proof.
  induction items as [|[key code] items IH]; simpl; [now left|].
  destruct (key_matches key city_upper).
  - right. now left.
  - destruct IH as [IH|IH]; [now left | right; now right].
Qed.

(** First match wins: the loop returns the code of the first key, in table
    order, that equals or contains the normalized city. *)
Lemma scan_items_first (before after : city_table) (key code city_upper : string) :
  Forall (fun kv => key_matches (fst kv) city_upper = false) before ->
  key_matches key city_upper = true ->
  scan_items (before ++ (key, code) :: after)%list city_upper = code.
Proof.
  induction 1 as [|[k c] before Hk _ IH]; intros Hm; simpl.
  - now rewrite Hm.
  - simpl in Hk. rewrite Hk. now apply IH.
Qed.

Lemma scan_items_unmatched (items : city_table) (city_upper : string) :
  Forall (fun kv => key_matches (fst kv) city_upper = false) items ->
  scan_items items city_upper = "UNK00".
Proof.
  induction 1 as [|[k c] items Hk _ IH]; simpl; [reflexivity|].
  simpl in Hk. now rewrite Hk.
Qed.

Lemma scan_items_sentinel (items : city_table) (city_upper : string) :
  ~ In "UNK00" (map snd items) ->
  scan_items items city_upper = "UNK00" ->
  Forall (fun kv => key_matches (fst kv) city_upper = false) items.
Proof.
  induction items as [|[key code] items IH]; simpl; intros Hn Hs;
    [constructor|].
  destruct (key_matches key city_upper) eqn:E.
  - elim Hn. left. exact Hs.
  - constructor; [exact E|]. apply IH; [|exact Hs].
    intros F. apply Hn. now right.
Qed.

Lemma research_in_codes (db : directory) (country city : string) :
  In (research_in db country city) ("UNK00" :: stored_codes db).
Proof.
  unfold research_in.
  destruct (scan_items_result (Py.dict_get db country [])
              (Py.strip (Py.upper city))) as [E|HIn].
  - left. now rewrite E.
  - right. destruct (dict_get_in db country) as [E|Hdb].
    + rewrite E in HIn. destruct HIn.
    + unfold stored_codes. apply in_flat_map.
      exists (country, Py.dict_get db country []). split; assumption.
Qed.

(** The country tables of [UNLOCODE_DB], one case per registered country. *)
Lemma UNLOCODE_DB_tables (country : string) (table : city_table) :
  In (country, table) UNLOCODE_DB ->
  Py.dict_get UNLOCODE_DB country [] = table /\
  ~ In "UNK00" (map snd table).
Proof.
  simpl. intros [H|[H|[H|[H|[]]]]]; inversion H; subst; clear H;
    (split; [reflexivity|]);
    simpl; intros F; repeat (destruct F as [F|F]; [discriminate F|]);
    exact F.
Qed.

Lemma UNLOCODE_DB_lookup (country : string) :
  Py.dict_get UNLOCODE_DB country [] = [] \/
  In (country, Py.dict_get UNLOCODE_DB country []) UNLOCODE_DB.
Proof. apply dict_get_in. Qed.

(** The single loop does not look for an exact match first: with the two
    French keys stored in the other order, the exact key loses. *)
Remark exact_match_needs_table_order :
  research_in
    [ ("France", [ ("MARSEILLE-EN-BEAUVAISIS", "FRMBE");
                   ("MARSEILLE", "FRMRS") ]) ]
    "France" "MARSEILLE" = "FRMBE".
Proof. reflexivity. Qed.

(** Containment also resolves a city that is no stored key: a part of a
    key, and the empty city, get the code of the first key of the table. *)
Remark partial_city_resolves :
  simulate_research_agent "France" "Mars" = "FRMRS"
  /\ simulate_research_agent "France" "beauvaisis" = "FRMBE"
  /\ simulate_research_agent "United States" "" = "USNYC".
Proof. repeat split; reflexivity. Qed.

End Research.

(** C2: the code returned by the location lookup always has exactly 5
    characters: it is the sentinel UNK00 or one of the stored codes.  Hence
    the length test of the lookup agent succeeds on it, the segment is the
    last three characters of the returned code and is never UNK; for the
    sentinel it is K00.  The same holds for the record the orchestrator
    builds. *)
Theorem C2_lookup_code_has_length_5 :
  forall country city,
    let code := simulate_research_agent country city in
    String.length code = 5
    /\ (code = "UNK00" \/ In code (stored_codes UNLOCODE_DB))
    /\ (5 <=? String.length code) = true
    /\ location_segment code = Py.last_chars 3 code
    /\ location_segment code <> "UNK"
    /\ location_segment "UNK00" = "K00"
    /\ forall company_name, exists out,
         lead_agent_orchestrate country city company_name = Ok out
         /\ final_output.unlocode out = code
         /\ final_output.location_code out = Py.last_chars 3 code
         /\ final_output.location_code out <> "UNK".
Proof.
  intros country city code.
  assert (Hcases : In code ("UNK00" :: stored_codes UNLOCODE_DB))
    by apply research_in_codes.
  assert (Hseg : String.length code = 5
                 /\ location_segment code = Py.last_chars 3 code
                 /\ location_segment code <> "UNK").
  { clear -Hcases. revert Hcases. generalize code. clear code.
    intros code H. in_cases H; subst code;
      (split; [reflexivity | split; [reflexivity | discriminate]]). }
  destruct Hseg as (Hlen & Hlast & Hunk).
  split; [exact Hlen|].
  split; [simpl in Hcases; destruct Hcases as [E|E]; [left; now rewrite E | now right]|].
  split; [now rewrite Hlen|].
  split; [exact Hlast|]. split; [exact Hunk|]. split; [reflexivity|].
  intros company_name.
  unfold lead_agent_orchestrate, simulate_lookup_agent.
  fold code. rewrite generate_closed_form. cbv beta iota delta [bind].
  eexists. split; [reflexivity|]. simpl.
  repeat split; assumption.
Qed.

(** C4: on the stored directory an exact match takes precedence.  If the
    trimmed, uppercased city equals a stored key of the country, the lookup
    returns that key's code, and it does not return the code of any other
    key of the country, also when the city is contained in such a key (as
    MARSEILLE is in MARSEILLE-EN-BEAUVAISIS). *)
Theorem C4_exact_match_precedence :
  forall country city key code,
    In (key, code) (Py.dict_get UNLOCODE_DB country []) ->
    Py.strip (Py.upper city) = key ->
    simulate_research_agent country city = code
    /\ forall key' code',
         In (key', code') (Py.dict_get UNLOCODE_DB country []) ->
         key' <> key ->
         simulate_research_agent country city <> code'.
Proof.
  intros country city key code Hin Hnorm.
  unfold simulate_research_agent, research_in. rewrite Hnorm. clear Hnorm.
  destruct (UNLOCODE_DB_lookup country) as [E|Hdb].
  - rewrite E in Hin. destruct Hin.
  - remember (Py.dict_get UNLOCODE_DB country []) as table eqn:Ht.
    clear Ht. in_cases Hdb; inversion Hdb; subst country table; clear Hdb;
      in_cases Hin; inversion Hin; subst key code; clear Hin;
      (split; [reflexivity|]);
      intros key' code' Hin' Hneq;
      in_cases Hin'; inversion Hin'; subst key' code'; clear Hin';
      solve [discriminate | now elim Hneq].
Qed.

Lemma C4_exact_match_precedence_witness :
  key_matches "MARSEILLE" "MARSEILLE" = true
  /\ key_matches "MARSEILLE-EN-BEAUVAISIS" "MARSEILLE" = true
  /\ simulate_research_agent "France" " marseille " = "FRMRS"
  /\ simulate_research_agent "France" " marseille " <> "FRMBE".
Proof.
  split; [reflexivity|]. split; [reflexivity|].
  destruct (C4_exact_match_precedence "France" " marseille " "MARSEILLE" "FRMRS")
    as [Hcode Hother].
  - simpl. left. reflexivity.
  - reflexivity.
  - split; [exact Hcode|].
    apply (Hother "MARSEILLE-EN-BEAUVAISIS" "FRMBE").
    + simpl. right. left. reflexivity.
    + discriminate.
Defined.

(** C6: for every country and city key stored in the directory, the lookup
    returns the code stored for that pair; for a country that has no entry,
    and for a city that no key of the country's table equals or contains
    once trimmed and uppercased, it returns the sentinel UNK00, and only
    then.  The lookup is a total function returning a string: it has no
    raising path. *)
Theorem C6_directory_lookup :
  (forall country table key code,
      In (country, table) UNLOCODE_DB -> In (key, code) table ->
      simulate_research_agent country key = code)
  /\ (forall country city,
         ~ In country (map fst UNLOCODE_DB) ->
         simulate_research_agent country city = "UNK00")
  /\ (forall country city,
         Forall (fun kv => key_matches (fst kv) (Py.strip (Py.upper city)) = false)
                (Py.dict_get UNLOCODE_DB country []) <->
         simulate_research_agent country city = "UNK00").
Proof.
  split; [|split].
  - intros country table key code Hdb Hin.
    in_cases Hdb; inversion Hdb; subst country table; clear Hdb;
      in_cases Hin; inversion Hin; subst key code; reflexivity.
  - intros country city Hno. unfold simulate_research_agent, research_in.
    now rewrite (dict_get_missing _ _ Hno).
  - intros country city. unfold simulate_research_agent, research_in. split.
    + apply scan_items_unmatched.
    + destruct (UNLOCODE_DB_lookup country) as [E|Hdb].
      * rewrite E. constructor.
      * apply scan_items_sentinel.
        apply (UNLOCODE_DB_tables _ _ Hdb).
Qed.

Lemma C6_directory_lookup_witness :
  simulate_research_agent "China" "SHANGHAI" = "CNSHA"
  /\ simulate_research_agent "Spain" "MADRID" = "UNK00"
  /\ simulate_research_agent "Germany" "Munich" = "UNK00".
Proof.
  destruct C6_directory_lookup as (Hstored & Hcountry & Hcity).
  split; [|split].
  - apply (Hstored "China" [("BEIJING", "CNBJS"); ("SHANGHAI", "CNSHA")]).
    + simpl. do 3 right. left. reflexivity.
    + simpl. right. left. reflexivity.
  - apply Hcountry. simpl.
    intros [H|[H|[H|[H|[]]]]]; discriminate H.
  - apply Hcity. simpl. constructor; [reflexivity | constructor].
Defined.

(** C10: the country is looked up as given, with no change of case and no
    trimming, while the city is normalized.  For every city the lookup
    under FRANCE, under france and under France with a blank before or
    after returns the sentinel UNK00, although France is a registered
    country and the lookup under France finds a lowercase, padded city. *)
Theorem C10_country_not_normalized :
  forall city,
    simulate_research_agent "FRANCE" city = "UNK00"
    /\ simulate_research_agent "france" city = "UNK00"
    /\ simulate_research_agent " France" city = "UNK00"
    /\ simulate_research_agent "France " city = "UNK00"
    /\ In "France" (map fst UNLOCODE_DB)
    /\ simulate_research_agent "France" " marseille " = "FRMRS".
Proof.
  intros city. unfold simulate_research_agent, research_in.
  repeat split; try reflexivity.
  simpl. now left.
Qed.

(** ** The lookup agent and the orchestrator *)

Section Assembly.

Lemma location_segment_length (unlocode : string) :
  String.length (location_segment unlocode) = 3.
Proof.
  unfold location_segment.
  destruct (Nat.leb_spec 5 (String.length unlocode)) as [H|H]; [|reflexivity].
  apply length_last_chars. lia.
Qed.

Lemma location_segment_short (unlocode : string) :
  String.length unlocode < 5 -> location_segment unlocode = "UNK".
Proof.
  intros H. unfold location_segment.
  destruct (Nat.leb_spec 5 (String.length unlocode)); [lia | reflexivity].
Qed.

Lemma lookup_closed_form (unlocode company_name : string) :
  exists abbr,
    generate_company_abbreviation company_name = Ok abbr /\
    simulate_lookup_agent unlocode company_name =
    Ok (abbr ++ location_segment unlocode, abbr, location_segment unlocode).
Proof.
  unfold simulate_lookup_agent.
  rewrite generate_closed_form. eexists. split; reflexivity.
Qed.

Lemma orchestrate_closed_form (country city company_name : string) :
  exists abbr,
    generate_company_abbreviation company_name = Ok abbr /\
    lead_agent_orchestrate country city company_name =
    Ok (final_output.mk
          country (Py.upper city) company_name
          (simulate_research_agent country city)
          abbr
          (location_segment (simulate_research_agent country city))
          (abbr ++ location_segment (simulate_research_agent country city))
          (simulate_critic_agent
             (abbr ++ location_segment (simulate_research_agent country city)))).
Proof.
  unfold lead_agent_orchestrate, simulate_lookup_agent.
  rewrite generate_closed_form. eexists. split; reflexivity.
Qed.

(** The second argument of the lookup agent is a company name: an
    abbreviation passed there is abbreviated again. *)
Remark lookup_agent_abbreviates_its_argument :
  simulate_lookup_agent "FRMRS" "ACMGLOL" = Ok ("ACMGLOMRS", "ACMGLO", "MRS").
Proof. reflexivity. Qed.

End Assembly.

(** C1, as the code has it: the sentinel UNK00 has five characters, so the
    lookup agent takes its last three: for every company name it returns
    the abbreviation followed by K00, with segment K00.  The segment UNK is
    what a code of fewer than five characters gives.  On UNK00 and ACME the
    result is (ACMEK00, ACME, K00). *)
Theorem C1_sentinel_segment :
  (forall company_name, exists abbr,
      generate_company_abbreviation company_name = Ok abbr /\
      simulate_lookup_agent "UNK00" company_name =
      Ok (abbr ++ "K00", abbr, "K00"))
  /\ (forall unlocode company_name,
         String.length unlocode < 5 ->
         exists abbr,
           generate_company_abbreviation company_name = Ok abbr /\
           simulate_lookup_agent unlocode company_name =
           Ok (abbr ++ "UNK", abbr, "UNK"))
  /\ simulate_lookup_agent "UNK00" "ACME" = Ok ("ACMEK00", "ACME", "K00").
Proof.
  split; [|split].
  - intros company_name. apply (lookup_closed_form "UNK00").
  - intros unlocode company_name Hshort.
    destruct (lookup_closed_form unlocode company_name) as (abbr & Hg & Hl).
    exists abbr. rewrite (location_segment_short _ Hshort) in Hl. now split.
  - reflexivity.
Qed.

Lemma C1_sentinel_segment_witness :
  String.length "UNK" < 5
  /\ simulate_lookup_agent "UNK" "ACME" = Ok ("ACMEUNK", "ACME", "UNK").
Proof.
  split; [simpl; lia|].
  destruct (proj1 (proj2 C1_sentinel_segment) "UNK" "ACME") as (abbr & Hg & Hl).
  - simpl. lia.
  - rewrite Hl. vm_compute in Hg. injection Hg as <-. reflexivity.
Defined.

(** C1, counterexample: on the sentinel UNK00 and ACME the lookup agent
    returns org_code ACMEK00 and segment K00, not ACMEUNK and UNK. *)
Lemma C1_counterexample :
  simulate_lookup_agent "UNK00" "ACME" = Ok ("ACMEK00", "ACME", "K00")
  /\ ~ (exists abbr,
          simulate_lookup_agent "UNK00" "ACME" = Ok ("ACMEUNK", abbr, "UNK")).
Proof.
  split; [reflexivity|].
  intros [abbr H]. vm_compute in H. discriminate H.
Qed.

(** C7, as the code has it: the second argument of the lookup agent is a
    company name.  For every location code and company name, the agent
    returns an org_code that is the abbreviation it generates from the
    name, returned as company_abbr, immediately followed by the location
    segment; the segment has exactly 3 characters, and the org_code is 3
    characters longer than that abbreviation. *)
Theorem C7_org_code_shape :
  forall unlocode company_name, exists abbr segment,
    simulate_lookup_agent unlocode company_name = Ok (abbr ++ segment, abbr, segment)
    /\ generate_company_abbreviation company_name = Ok abbr
    /\ segment = location_segment unlocode
    /\ String.length segment = 3
    /\ String.length (abbr ++ segment) = String.length abbr + 3.
Proof.
  intros unlocode company_name.
  destruct (lookup_closed_form unlocode company_name) as (abbr & Hg & Hl).
  exists abbr, (location_segment unlocode).
  repeat split; try assumption.
  - apply location_segment_length.
  - now rewrite length_append, location_segment_length.
Qed.

(** C7, counterexample: given the location code FRMRS and the
    abbreviation ACMGLOL, the agent abbreviates ACMGLOL again and returns
    the org_code ACMGLOMRS, of 9 characters: not ACMGLOL followed by MRS,
    and not 3 characters longer than ACMGLOL. *)
Lemma C7_counterexample :
  simulate_lookup_agent "FRMRS" "ACMGLOL" = Ok ("ACMGLOMRS", "ACMGLO", "MRS")
  /\ ~ (exists abbr segment,
          simulate_lookup_agent "FRMRS" "ACMGLOL"
          = Ok ("ACMGLOL" ++ segment, abbr, segment))
  /\ String.length "ACMGLOMRS" <> String.length "ACMGLOL" + 3.
Proof.
  split; [reflexivity|]. split.
  - intros (abbr & segment & H). vm_compute in H.
    injection H as H _ Hs. subst segment. discriminate H.
  - simpl. lia.
Qed.

(** C8: the orchestrator threads the stages in order.  For every input it
    returns a record holding the country and the company name as given,
    the city uppercased, the code of the location lookup, the generated
    abbreviation, the segment and org_code the lookup agent builds from
    that code and that name, and the critic's message for that org_code.
    For France, marseille and TEST BY KALAI the code is FRMRS, the
    abbreviation TESBYK and the org_code TESBYKMRS. *)
Theorem C8_orchestrator_threads_stages :
  (forall country city company_name, exists abbr segment org_code,
      generate_company_abbreviation company_name = Ok abbr
      /\ simulate_lookup_agent (simulate_research_agent country city) company_name
         = Ok (org_code, abbr, segment)
      /\ lead_agent_orchestrate country city company_name =
         Ok (final_output.mk
               country (Py.upper city) company_name
               (simulate_research_agent country city)
               abbr segment org_code
               (simulate_critic_agent org_code)))
  /\ lead_agent_orchestrate "France" "marseille" "TEST BY KALAI" =
     Ok (final_output.mk
           "France" "MARSEILLE" "TEST BY KALAI"
           "FRMRS" "TESBYK" "MRS" "TESBYKMRS"
           "Validated: The Organization Code 'TESBYKMRS' is correctly generated based on the UNLOCODE data.").
Proof.
  split; [|reflexivity].
  intros country city company_name.
  destruct (orchestrate_closed_form country city company_name)
    as (abbr & Hg & Ho).
  exists abbr, (location_segment (simulate_research_agent country city)),
    (abbr ++ location_segment (simulate_research_agent country city)).
  split; [exact Hg|]. split; [|exact Ho].
  unfold simulate_lookup_agent. now rewrite Hg.
Qed.

(** C9: the pipeline is total.  For every country, city and company name,
    the words of the name are all non-empty, so taking the first character
    of any of them succeeds; the generator, the lookup agent (on any code)
    and the orchestrator each return a value and do not raise.  The
    location lookup returns the sentinel or a stored code, and the critic
    returns its message; both are total functions to strings. *)
Theorem C9_pipeline_total :
  forall country city company_name,
    Forall (fun w => w <> "") (Py.split company_name)
    /\ Forall (fun w => exists c, Py.str_first w = Ok c) (Py.split company_name)
    /\ (exists abbr, generate_company_abbreviation company_name = Ok abbr)
    /\ (forall unlocode, exists r,
           simulate_lookup_agent unlocode company_name = Ok r)
    /\ In (simulate_research_agent country city)
          ("UNK00" :: stored_codes UNLOCODE_DB)
    /\ (forall org_code, exists message, simulate_critic_agent org_code = message)
    /\ (exists out, lead_agent_orchestrate country city company_name = Ok out).
Proof.
  intros country city company_name.
  split; [apply split_nonempty|].
  split.
  { eapply Forall_impl; [|apply split_nonempty].
    intros w Hw. exists (Py.take 1 w). now apply str_first_take1. }
  split; [eexists; apply generate_closed_form|].
  split.
  { intros unlocode.
    destruct (lookup_closed_form unlocode company_name) as (abbr & _ & Hl).
    eexists. exact Hl. }
  split; [apply research_in_codes|].
  split; [intros; eexists; reflexivity|].
  destruct (orchestrate_closed_form country city company_name)
    as (abbr & _ & Ho).
  eexists. exact Ho.
Qed.

(** * Further properties of the code *)

(** ** Characters and normalization *)

Section Normalization.

Lemma upper_char_idem (c : ascii) :
  Py.upper_char (Py.upper_char c) = Py.upper_char c.
Proof. destruct c as [[] [] [] [] [] [] [] []]; reflexivity. Qed.

Lemma isspace_upper_char (c : ascii) :
  Py.isspace (Py.upper_char c) = Py.isspace c.
Proof. destruct c as [[] [] [] [] [] [] [] []]; reflexivity. Qed.

Lemma islower_upper_char (c : ascii) :
  Py.islower (Py.upper_char c) = false.
Proof. destruct c as [[] [] [] [] [] [] [] []]; reflexivity. Qed.

Lemma blank_upper_char (c : ascii) :
  Ascii.eqb (Py.upper_char c) " " = Ascii.eqb c " ".
Proof. destruct c as [[] [] [] [] [] [] [] []]; reflexivity. Qed.

Lemma upper_char_space (c : ascii) :
  Py.isspace c = true -> Py.upper_char c = c.
Proof. destruct c as [[] [] [] [] [] [] [] []]; intros H; try reflexivity; discriminate H. Qed.

Lemma upper_idem (s : string) : Py.upper (Py.upper s) = Py.upper s.
Proof.
  induction s as [|c s IH]; simpl; [reflexivity|].
  now rewrite upper_char_idem, IH.
Qed.

Lemma all_space_upper (s : string) : all_space (Py.upper s) = all_space s.
Proof.
  induction s as [|c s IH]; simpl; [reflexivity|].
  unfold all_space in *. simpl. now rewrite isspace_upper_char, IH.
Qed.

Lemma upper_all_space (s : string) : all_space s = true -> Py.upper s = s.
Proof.
  unfold all_space. induction s as [|c s IH]; simpl; [reflexivity|].
  intros H. apply andb_true_iff in H as [Hc Hs].
  now rewrite (upper_char_space _ Hc), (IH Hs).
Qed.

Lemma only_blanks_all_space (s : string) :
  only_blanks s = true -> all_space s = true.
Proof.
  unfold only_blanks, all_space. induction s as [|c s IH]; simpl; [reflexivity|].
  intros H. apply andb_true_iff in H as [Hc Hs].
  apply Ascii.eqb_eq in Hc. subst c. now rewrite (IH Hs).
Qed.

Lemma lstrip_all_space (s : string) : all_space s = true -> Py.lstrip s = "".
Proof.
  unfold all_space. induction s as [|c s IH]; simpl; [reflexivity|].
  intros H. apply andb_true_iff in H as [Hc Hs]. rewrite Hc. now apply IH.
Qed.

Lemma rstrip_all_space (s : string) : all_space s = true -> Py.rstrip s = "".
Proof.
  unfold all_space. induction s as [|c s IH]; simpl; [reflexivity|].
  intros H. apply andb_true_iff in H as [Hc Hs]. now rewrite (IH Hs), Hc.
Qed.

Lemma lstrip_pad (pre s : string) :
  all_space pre = true -> Py.lstrip (pre ++ s) = Py.lstrip s.
Proof.
  unfold all_space. induction pre as [|c pre IH]; simpl; [reflexivity|].
  intros H. apply andb_true_iff in H as [Hc Hs]. rewrite Hc. now apply IH.
Qed.

Lemma rstrip_pad (s post : string) :
  all_space post = true -> Py.rstrip (s ++ post) = Py.rstrip s.
Proof.
  intros H. induction s as [|c s IH]; simpl.
  - now apply rstrip_all_space.
  - now rewrite IH.
Qed.

Lemma strip_pad (pre s post : string) :
  all_space pre = true -> all_space post = true ->
  Py.strip (pre ++ s ++ post) = Py.strip s.
Proof.
  intros Hpre Hpost. unfold Py.strip. rewrite (lstrip_pad _ _ Hpre).
  induction s as [|c s IH]; simpl.
  - now rewrite (lstrip_all_space _ Hpost).
  - destruct (Py.isspace c); [exact IH|].
    change (String c (s ++ post)) with (String c s ++ post).
    now apply rstrip_pad.
Qed.

Lemma strip_all_space (s : string) : all_space s = true -> Py.strip s = "".
Proof.
  intros H. unfold Py.strip. now rewrite (lstrip_all_space _ H).
Qed.

End Normalization.

(** ** Containment *)

Section Containment.

Lemma prefix_empty (s : string) : prefix "" s = true.
Proof. destruct s; reflexivity. Qed.

Lemma prefix_append (a b : string) : prefix a (a ++ b) = true.
Proof.
  induction a as [|c a IH]; simpl; [apply prefix_empty|].
  destruct (ascii_dec c c); [exact IH | congruence].
Qed.

Lemma prefix_inv (a s : string) :
  prefix a s = true -> exists post, s = a ++ post.
Proof.
  revert s. induction a as [|c a IH]; intros s H.
  - exists s. reflexivity.
  - destruct s as [|d s]; simpl in H; [discriminate|].
    destruct (ascii_dec c d) as [->|]; [|discriminate].
    destruct (IH _ H) as [post ->]. exists post. reflexivity.
Qed.

Lemma contains_prefix (sub s : string) :
  prefix sub s = true -> Py.contains sub s = true.
Proof.
  intros H. destruct s; cbn [Py.contains]; now rewrite H.
Qed.

Lemma contains_intro (pre sub post : string) :
  Py.contains sub (pre ++ sub ++ post) = true.
Proof.
  induction pre as [|c pre IH].
  - cbn [append]. apply contains_prefix, prefix_append.
  - simpl. rewrite IH. apply orb_true_r.
Qed.

Lemma contains_inv (sub s : string) :
  Py.contains sub s = true -> exists pre post, s = pre ++ sub ++ post.
Proof.
  induction s as [|c s IH]; cbn [Py.contains]; intros H.
  - rewrite orb_false_r in H. destruct (prefix_inv _ _ H) as [post E].
    exists "", post. exact E.
  - apply orb_true_iff in H as [H|H].
    + destruct (prefix_inv _ _ H) as [post E]. exists "", post. exact E.
    + destruct (IH H) as (pre & post & ->). exists (String c pre), post.
      reflexivity.
Qed.

Lemma contains_refl (s : string) : Py.contains s s = true.
Proof.
  rewrite <- (append_empty_r s) at 2. apply (contains_intro "" s "").
Qed.

Lemma contains_empty (s : string) : Py.contains "" s = true.
Proof. apply contains_prefix, prefix_empty. Qed.

Lemma key_matches_contains (key city_upper : string) :
  key_matches key city_upper = Py.contains city_upper (Py.upper key).
Proof.
  unfold key_matches.
  destruct (String.eqb_spec (Py.upper key) city_upper) as [<-|_];
    [|reflexivity].
  now rewrite contains_refl.
Qed.

Lemma scan_items_match (items : city_table) (city_upper : string) :
  scan_items items city_upper <> "UNK00" ->
  exists key, In (key, scan_items items city_upper) items
              /\ key_matches key city_upper = true.
Proof.
  induction items as [|[key code] items IH]; simpl; intros H; [congruence|].
  destruct (key_matches key city_upper) eqn:E.
  - exists key. split; [now left | exact E].
  - destruct (IH H) as (k & Hin & Hk). exists k. split; [now right | exact Hk].
Qed.

End Containment.

(** ** The location lookup: normalization, first match, edge cases *)

Lemma normalize_pad (city pre post : string) :
  all_space pre = true -> all_space post = true ->
  Py.strip (Py.upper (pre ++ Py.upper city ++ post))
  = Py.strip (Py.upper city).
Proof.
  intros Hpre Hpost. rewrite !upper_append, upper_idem.
  apply strip_pad; now rewrite all_space_upper.
Qed.

(** X1: the lookup does not depend on the case of the city nor on
    whitespace around it: a city uppercased and padded with whitespace on
    either side resolves to the same code as the city itself. *)
Theorem X1_city_case_and_padding :
  forall country city pre post,
    all_space pre = true -> all_space post = true ->
    simulate_research_agent country (pre ++ Py.upper city ++ post)
    = simulate_research_agent country city.
Proof.
  intros country city pre post Hpre Hpost.
  unfold simulate_research_agent, research_in.
  now rewrite (normalize_pad city pre post Hpre Hpost).
Qed.

Lemma X1_city_case_and_padding_witness :
  simulate_research_agent "France" ("  " ++ Py.upper "Marseille" ++ " ")
  = simulate_research_agent "France" "Marseille".
Proof.
  apply (X1_city_case_and_padding "France" "Marseille" "  " " ");
    reflexivity.
Defined.

(** X2: a code other than the sentinel is never returned without a reason:
    over any database, when the lookup returns a code that is not UNK00,
    the table of the country stores that code under a key whose uppercase
    form contains the trimmed, uppercased city. *)
Theorem X2_resolved_code_has_matching_key :
  forall (db : directory) country city,
    research_in db country city <> "UNK00" ->
    exists key pre post,
      In (key, research_in db country city) (Py.dict_get db country [])
      /\ Py.upper key = pre ++ Py.strip (Py.upper city) ++ post.
Proof.
  intros db country city H. unfold research_in in *.
  destruct (scan_items_match _ _ H) as (key & Hin & Hm).
  rewrite key_matches_contains in Hm.
  destruct (contains_inv _ _ Hm) as (pre & post & E).
  exists key, pre, post. split; assumption.
Qed.

Lemma X2_resolved_code_has_matching_key_witness :
  exists key pre post,
    In (key, "FRMBE") (Py.dict_get UNLOCODE_DB "France" [])
    /\ Py.upper key = pre ++ "BEAUVAIS" ++ post.
Proof.
  apply (X2_resolved_code_has_matching_key UNLOCODE_DB "France" "beauvais").
  vm_compute. discriminate.
Defined.

(** X3: first match wins, over any database: when the table of the country
    lists a key containing the normalized city after keys that do not
    contain it, the lookup returns the code of that key, whatever follows
    it in the table. *)
Theorem X3_first_containing_key_wins :
  forall (db : directory) country city (before after : city_table) key code,
    Py.dict_get db country [] = (before ++ (key, code) :: after)%list ->
    Forall (fun kv =>
              Py.contains (Py.strip (Py.upper city)) (Py.upper (fst kv)) = false)
           before ->
    Py.contains (Py.strip (Py.upper city)) (Py.upper key) = true ->
    research_in db country city = code.
Proof.
  intros db country city before after key code Ht Hb Hk.
  unfold research_in. rewrite Ht. apply scan_items_first.
  - eapply Forall_impl; [|exact Hb]. intros kv Hkv.
    now rewrite key_matches_contains.
  - now rewrite key_matches_contains.
Qed.

Lemma X3_first_containing_key_wins_witness :
  simulate_research_agent "France" "beauvais" = "FRMBE".
Proof.
  apply (X3_first_containing_key_wins UNLOCODE_DB "France" "beauvais"
           [("MARSEILLE", "FRMRS")] [] "MARSEILLE-EN-BEAUVAISIS" "FRMBE").
  - reflexivity.
  - constructor; [reflexivity | constructor].
  - reflexivity.
Defined.

(** X4: an empty city, or one made of whitespace only, is contained in
    every key: over any database the lookup then returns the code of the
    first entry of the country's table, and the sentinel only when the
    country has no entry. *)
Theorem X4_blank_city_takes_first_entry :
  forall (db : directory) country city,
    all_space city = true ->
    research_in db country city =
    match Py.dict_get db country [] with
    | [] => "UNK00"
    | (_, code) :: _ => code
    end.
Proof.
  intros db country city H. unfold research_in.
  rewrite strip_all_space by now rewrite all_space_upper.
  destruct (Py.dict_get db country []) as [|[key code] rest]; [reflexivity|].
  simpl. now rewrite key_matches_contains, contains_empty.
Qed.

Lemma X4_blank_city_takes_first_entry_witness :
  simulate_research_agent "United States" "  " = "USNYC".
Proof.
  apply (X4_blank_city_takes_first_entry UNLOCODE_DB "United States" "  ").
  reflexivity.
Defined.

(** ** The abbreviation generator: case, blanks, later words *)

Section AbbreviationFacts.

Lemma str_all_append (p : ascii -> bool) (a b : string) :
  Py.str_all p (a ++ b) = Py.str_all p a && Py.str_all p b.
Proof.
  induction a as [|c a IH]; simpl; [reflexivity|].
  now rewrite IH, andb_assoc.
Qed.

Lemma str_all_take (p : ascii -> bool) (n : nat) (s : string) :
  Py.str_all p s = true -> Py.str_all p (Py.take n s) = true.
Proof.
  revert s. induction n as [|n IH]; intros [|c s]; simpl; auto.
  intros H. apply andb_true_iff in H as [Hc Hs]. now rewrite Hc, IH.
Qed.

Lemma no_lower_upper (s : string) : no_lower (Py.upper s) = true.
Proof.
  unfold no_lower. induction s as [|c s IH]; simpl; [reflexivity|].
  now rewrite islower_upper_char, IH.
Qed.

Lemma no_blank_upper (s : string) : no_blank (Py.upper s) = no_blank s.
Proof.
  unfold no_blank. induction s as [|c s IH]; simpl; [reflexivity|].
  now rewrite blank_upper_char, IH.
Qed.

Lemma no_blank_remove (s : string) : no_blank (Py.remove_char " " s) = true.
Proof.
  unfold no_blank. induction s as [|c s IH]; simpl; [reflexivity|].
  destruct (Ascii.eqb c " ") eqn:E; [exact IH|]. simpl. now rewrite E, IH.
Qed.

Lemma no_space_no_blank (w : string) : no_space w = true -> no_blank w = true.
Proof.
  unfold no_blank. induction w as [|c w IH]; simpl; [reflexivity|].
  intros H. apply andb_true_iff in H as [Hc Hw].
  apply negb_true_iff in Hc. now rewrite (isspace_not_blank _ Hc), IH.
Qed.

Lemma no_space_append (a b : string) :
  no_space (a ++ b) = no_space a && no_space b.
Proof.
  induction a as [|c a IH]; simpl; [reflexivity|].
  now rewrite IH, andb_assoc.
Qed.

Lemma no_space_take (n : nat) (w : string) :
  no_space w = true -> no_space (Py.take n w) = true.
Proof.
  revert w. induction n as [|n IH]; intros [|c w]; simpl; auto.
  intros H. apply andb_true_iff in H as [Hc Hw]. now rewrite Hc, IH.
Qed.

Lemma no_space_upper (w : string) : no_space (Py.upper w) = no_space w.
Proof.
  induction w as [|c w IH]; simpl; [reflexivity|].
  now rewrite isspace_upper_char, IH.
Qed.

Lemma remove_no_blank (s : string) :
  no_blank s = true -> Py.remove_char " " s = s.
Proof.
  unfold no_blank. induction s as [|c s IH]; simpl; [reflexivity|].
  intros H. apply andb_true_iff in H as [Hc Hs].
  apply negb_true_iff in Hc. now rewrite Hc, IH.
Qed.

(** The words of [split] contain no whitespace. *)
Lemma split_from_no_space (s : string) :
  forall word, no_space word = true ->
               Forall (fun w => no_space w = true) (Py.split_from word s).
Proof.
  induction s as [|c s IH]; intros word Hw; simpl.
  - destruct word; simpl; [constructor | now constructor].
  - destruct (Py.isspace c) eqn:E.
    + destruct word; simpl; [now apply IH|].
      constructor; [exact Hw | now apply IH].
    + apply IH. rewrite no_space_append, Hw. simpl. now rewrite E.
Qed.

Lemma split_words (s : string) : Forall is_word (Py.split s).
Proof.
  pose proof (split_nonempty s) as H1.
  pose proof (split_from_no_space s "" eq_refl) as H2.
  fold (Py.split s) in H2.
  induction (Py.split s) as [|w l IH]; constructor.
  - split; [exact (Forall_inv H1) | exact (Forall_inv H2)].
  - apply IH; [exact (Forall_inv_tail H1) | exact (Forall_inv_tail H2)].
Qed.

(** [split], slicing and blank removal commute with [upper]. *)
Lemma emit_upper (w : string) (l : list string) :
  Py.emit (Py.upper w) (map Py.upper l) = map Py.upper (Py.emit w l).
Proof. destruct w; reflexivity. Qed.

Lemma split_from_upper (s : string) :
  forall word, Py.split_from (Py.upper word) (Py.upper s)
               = map Py.upper (Py.split_from word s).
Proof.
  induction s as [|c s IH]; intros word; simpl.
  - apply (emit_upper word []).
  - rewrite isspace_upper_char. destruct (Py.isspace c).
    + rewrite <- emit_upper. f_equal. apply (IH "").
    + rewrite <- IH, upper_append. reflexivity.
Qed.

Lemma split_upper (s : string) :
  Py.split (Py.upper s) = map Py.upper (Py.split s).
Proof. apply (split_from_upper s ""). Qed.

Lemma take_upper (n : nat) (s : string) :
  Py.take n (Py.upper s) = Py.upper (Py.take n s).
Proof.
  revert s. induction n as [|n IH]; intros [|c s]; simpl; auto.
  now rewrite IH.
Qed.

Lemma remove_upper (s : string) :
  Py.remove_char " " (Py.upper s) = Py.upper (Py.remove_char " " s).
Proof.
  induction s as [|c s IH]; simpl; [reflexivity|].
  rewrite blank_upper_char. destruct (Ascii.eqb c " "); simpl; now rewrite IH.
Qed.

(** Whitespace around a name does not change its words. *)
Lemma split_from_all_space (post : string) :
  all_space post = true ->
  forall word, Py.split_from word post = Py.emit word [].
Proof.
  unfold all_space. induction post as [|c post IH]; simpl; intros H word;
    [reflexivity|].
  apply andb_true_iff in H as [Hc Hp]. rewrite Hc, (IH Hp ""). reflexivity.
Qed.

Lemma split_from_pad_right (s post : string) :
  all_space post = true ->
  forall word, Py.split_from word (s ++ post) = Py.split_from word s.
Proof.
  intros H. induction s as [|c s IH]; intros word; simpl.
  - now apply split_from_all_space.
  - destruct (Py.isspace c); now rewrite IH.
Qed.

Lemma split_pad_left (pre s : string) :
  all_space pre = true -> Py.split (pre ++ s) = Py.split s.
Proof.
  unfold all_space, Py.split. induction pre as [|c pre IH]; simpl; intros H;
    [reflexivity|].
  apply andb_true_iff in H as [Hc Hp]. rewrite Hc. simpl. now apply IH.
Qed.

Lemma split_pad (pre s post : string) :
  all_space pre = true -> all_space post = true ->
  Py.split (pre ++ s ++ post) = Py.split s.
Proof.
  intros Hpre Hpost. rewrite (split_pad_left _ _ Hpre).
  apply (split_from_pad_right s post Hpost "").
Qed.

Lemma remove_append (a b : string) :
  Py.remove_char " " (a ++ b) = Py.remove_char " " a ++ Py.remove_char " " b.
Proof.
  induction a as [|c a IH]; simpl; [reflexivity|].
  destruct (Ascii.eqb c " "); simpl; now rewrite IH.
Qed.

Lemma remove_only_blanks (s : string) :
  only_blanks s = true -> Py.remove_char " " s = "".
Proof.
  unfold only_blanks. induction s as [|c s IH]; simpl; [reflexivity|].
  intros H. apply andb_true_iff in H as [Hc Hs]. now rewrite Hc, IH.
Qed.

Lemma split_all_space (s : string) : all_space s = true -> Py.split s = [].
Proof. intros H. apply (split_from_all_space s H ""). Qed.

Lemma take_take (n : nat) (s : string) : Py.take n (Py.take n s) = Py.take n s.
Proof.
  revert s. induction n as [|n IH]; intros [|c s]; simpl; auto.
  now rewrite IH.
Qed.

Lemma take_word (n : nat) (w : string) : is_word w -> is_word (Py.take (S n) w).
Proof.
  intros [Hne Hns]. split.
  - destruct w; [congruence | discriminate].
  - now apply no_space_take.
Qed.

End AbbreviationFacts.



Lemma generate_upper (company_name : string) :
  generate_company_abbreviation (Py.upper company_name)
  = generate_company_abbreviation company_name.
Proof.
  rewrite !generate_closed_form, split_upper. f_equal.
  destruct (Py.split company_name) as [|w1 [|w2 [|w3 rest]]]; simpl map;
    repeat first [ rewrite upper_append | rewrite take_upper
                 | rewrite remove_upper | rewrite upper_idem ];
    reflexivity.
Qed.

(** X5: the abbreviation does not depend on the case of an ASCII name: two
    ASCII names that are equal once uppercased get the same abbreviation,
    and an ASCII name gets the abbreviation of its uppercase form. *)
Theorem X5_abbreviation_ignores_case :
  forall name name',
    is_ascii name = true -> is_ascii name' = true ->
    Py.upper name = Py.upper name' ->
    generate_company_abbreviation name = generate_company_abbreviation name'
    /\ generate_company_abbreviation (Py.upper name)
       = generate_company_abbreviation name.
Proof.
  intros name name' _ _ H. split; [|apply generate_upper].
  rewrite <- (generate_upper name), <- (generate_upper name').
  now rewrite H.
Qed.

Lemma X5_abbreviation_ignores_case_witness :
  generate_company_abbreviation "acme Global logistics"
  = generate_company_abbreviation "Acme GLOBAL Logistics".
Proof.
  apply (X5_abbreviation_ignores_case
           "acme Global logistics" "Acme GLOBAL Logistics");
    reflexivity.
Defined.

Section AsciiFacts.

Lemma upper_char_ascii (c : ascii) :
  (nat_of_ascii (Py.upper_char c) <? 128) = (nat_of_ascii c <? 128).
Proof. destruct c as [[] [] [] [] [] [] [] []]; reflexivity. Qed.

Lemma is_ascii_upper (s : string) : is_ascii (Py.upper s) = is_ascii s.
Proof.
  unfold is_ascii. induction s as [|c s IH]; simpl; [reflexivity|].
  now rewrite upper_char_ascii, IH.
Qed.

Lemma str_all_remove (p : ascii -> bool) (s : string) :
  Py.str_all p s = true -> Py.str_all p (Py.remove_char " " s) = true.
Proof.
  induction s as [|c s IH]; simpl; [reflexivity|].
  intros H. apply andb_true_iff in H as [Hc Hs].
  destruct (Ascii.eqb c " "); simpl; [now apply IH|]. now rewrite Hc, IH.
Qed.

Lemma split_from_ascii (s : string) :
  forall word, is_ascii word = true -> is_ascii s = true ->
               Forall (fun w => is_ascii w = true) (Py.split_from word s).
Proof.
  unfold is_ascii. induction s as [|c s IH]; intros word Hw Hs; simpl.
  - destruct word; simpl; [constructor | now constructor].
  - simpl in Hs. apply andb_true_iff in Hs as [Hc Hs].
    destruct (Py.isspace c).
    + destruct word; simpl; [now apply IH|].
      constructor; [exact Hw | now apply IH].
    + apply IH; [|exact Hs]. rewrite str_all_append, Hw. simpl.
      now rewrite Hc.
Qed.

Lemma generate_ascii (company_name : string) :
  is_ascii company_name = true ->
  exists abbr,
    generate_company_abbreviation company_name = Ok abbr
    /\ is_ascii abbr = true.
Proof.
  intros H. eexists. split; [apply generate_closed_form|].
  pose proof (split_from_ascii company_name "" eq_refl H) as Hw.
  fold (Py.split company_name) in Hw.
  assert (Htake : forall n w, is_ascii w = true -> is_ascii (Py.take n w) = true)
    by (intros n w; apply str_all_take).
  destruct (Py.split company_name) as [|w1 [|w2 [|w3 rest]]];
    rewrite is_ascii_upper.
  - apply Htake, str_all_remove, H.
  - apply Htake, str_all_remove, H.
  - unfold is_ascii. rewrite str_all_append. apply andb_true_iff. split.
    + apply Htake, (Forall_inv Hw).
    + apply Htake, (Forall_inv (Forall_inv_tail Hw)).
  - unfold is_ascii. rewrite !str_all_append, !andb_true_iff. repeat split.
    + apply Htake, (Forall_inv Hw).
    + apply Htake, (Forall_inv (Forall_inv_tail Hw)).
    + apply Htake, (Forall_inv (Forall_inv_tail (Forall_inv_tail Hw))).
Qed.

Lemma generate_upper_no_blank :
  forall company_name, exists abbr,
    generate_company_abbreviation company_name = Ok abbr
    /\ no_lower abbr = true
    /\ no_blank abbr = true.
Proof.
  intros company_name. eexists. split; [apply generate_closed_form|].
  pose proof (split_words company_name) as Hw.
  assert (Htake : forall n w, is_word w -> no_blank (Py.take n w) = true).
  { intros n w [_ H]. now apply no_space_no_blank, no_space_take. }
  destruct (Py.split company_name) as [|w1 [|w2 [|w3 rest]]];
    (split; [apply no_lower_upper|]); rewrite no_blank_upper.
  - apply str_all_take, no_blank_remove.
  - apply str_all_take, no_blank_remove.
  - unfold no_blank. rewrite str_all_append. apply andb_true_iff. split.
    + apply Htake, (Forall_inv Hw).
    + apply Htake, (Forall_inv (Forall_inv_tail Hw)).
  - unfold no_blank. rewrite !str_all_append. rewrite !andb_true_iff.
    repeat split.
    + apply Htake, (Forall_inv Hw).
    + apply Htake, (Forall_inv (Forall_inv_tail Hw)).
    + apply Htake, (Forall_inv (Forall_inv_tail (Forall_inv_tail Hw))).
Qed.

End AsciiFacts.

(** X6: the abbreviation of an ASCII name is in uppercase and has no blank
    in it: for every name of ASCII characters the generator returns a
    string of ASCII characters without any lowercase letter and without
    the space character. *)
Theorem X6_abbreviation_uppercase_no_blank :
  forall company_name,
    is_ascii company_name = true ->
    exists abbr,
      generate_company_abbreviation company_name = Ok abbr
      /\ is_ascii abbr = true
      /\ no_lower abbr = true
      /\ no_blank abbr = true.
Proof.
  intros company_name H.
  destruct (generate_ascii company_name H) as (abbr & Hg & Ha).
  destruct (generate_upper_no_blank company_name) as (abbr' & Hg' & Hl & Hb).
  rewrite Hg in Hg'. injection Hg' as <-.
  exists abbr. repeat split; assumption.
Qed.

Lemma X6_abbreviation_uppercase_no_blank_witness :
  exists abbr,
    generate_company_abbreviation " acme  corp " = Ok abbr
    /\ is_ascii abbr = true
    /\ no_lower abbr = true
    /\ no_blank abbr = true.
Proof.
  apply (X6_abbreviation_uppercase_no_blank " acme  corp "). reflexivity.
Defined.

(** X7: blanks before and after the name do not change the abbreviation. *)
Theorem X7_abbreviation_ignores_outer_blanks :
  forall company_name pre post,
    only_blanks pre = true -> only_blanks post = true ->
    generate_company_abbreviation (pre ++ company_name ++ post)
    = generate_company_abbreviation company_name.
Proof.
  intros company_name pre post Hpre Hpost.
  rewrite !generate_closed_form.
  rewrite split_pad by now apply only_blanks_all_space.
  rewrite !remove_append, (remove_only_blanks _ Hpre),
    (remove_only_blanks _ Hpost), append_empty_r.
  reflexivity.
Qed.

Lemma X7_abbreviation_ignores_outer_blanks_witness :
  generate_company_abbreviation ("  " ++ "Acme Global" ++ " ")
  = generate_company_abbreviation "Acme Global".
Proof.
  apply (X7_abbreviation_ignores_outer_blanks "Acme Global" "  " " ");
    reflexivity.
Defined.

(** X8: a name made of whitespace has no word: the generator returns its
    first six characters other than blanks, unchanged, so the abbreviation
    is itself whitespace, and it is empty when the name is empty or made
    of blanks only. *)
Theorem X8_whitespace_name :
  forall company_name,
    all_space company_name = true ->
    generate_company_abbreviation company_name
    = Ok (Py.take 6 (Py.remove_char " " company_name))
    /\ all_space (Py.take 6 (Py.remove_char " " company_name)) = true
    /\ (only_blanks company_name = true ->
        generate_company_abbreviation company_name = Ok "").
Proof.
  intros company_name H.
  assert (Hr : all_space (Py.take 6 (Py.remove_char " " company_name)) = true).
  { apply str_all_take. clear -H. unfold all_space in *.
    induction company_name as [|c s IH]; simpl in *; [reflexivity|].
    apply andb_true_iff in H as [Hc Hs].
    destruct (Ascii.eqb c " "); simpl; [now apply IH|].
    now rewrite Hc, IH. }
  assert (Hg : generate_company_abbreviation company_name
               = Ok (Py.take 6 (Py.remove_char " " company_name))).
  { rewrite generate_closed_form, (split_all_space _ H).
    now rewrite (upper_all_space _ Hr). }
  split; [exact Hg|]. split; [exact Hr|].
  intros Hb. rewrite Hg. now rewrite (remove_only_blanks _ Hb).
Qed.

Lemma X8_whitespace_name_witness :
  generate_company_abbreviation "   " = Ok "".
Proof.
  destruct (X8_whitespace_name "   " eq_refl) as (_ & _ & H).
  apply H. reflexivity.
Defined.

(** X9: only the first three characters of the first two words and the
    first character of the third count: for words joined by single blanks,
    the name has the abbreviation of its first three words cut to three,
    three and one characters, whatever words follow. *)
Theorem X9_abbreviation_uses_word_prefixes :
  forall w1 w2 w3 rest,
    Forall is_word (w1 :: w2 :: w3 :: rest) ->
    generate_company_abbreviation (String.concat " " (w1 :: w2 :: w3 :: rest))
    = generate_company_abbreviation
        (String.concat " " [Py.take 3 w1; Py.take 3 w2; Py.take 1 w3]).
Proof.
  intros w1 w2 w3 rest H.
  assert (H' : Forall is_word [Py.take 3 w1; Py.take 3 w2; Py.take 1 w3]).
  { apply Forall_cons; [apply take_word, (Forall_inv H)|].
    apply Forall_cons;
      [apply take_word, (Forall_inv (Forall_inv_tail H))|].
    apply Forall_cons; [|apply Forall_nil].
    apply take_word, (Forall_inv (Forall_inv_tail (Forall_inv_tail H))). }
  rewrite !generate_closed_form.
  rewrite (split_concat_words _ H), (split_concat_words _ H').
  now rewrite !take_take.
Qed.

Lemma X9_abbreviation_uses_word_prefixes_witness :
  generate_company_abbreviation "Acme Global Logistics Ltd"
  = generate_company_abbreviation "Acm Glo L".
Proof.
  apply (X9_abbreviation_uses_word_prefixes "Acme" "Global" "Logistics" ["Ltd"]).
  repeat (apply Forall_cons; [split; [discriminate | reflexivity]|]).
  apply Forall_nil.
Defined.

(** ** Abbreviating an abbreviation *)

Section Reabbreviation.

(** The number of words read from [s] with the run [word] under way
    depends on [word] only through its being empty or not. *)
Lemma emit_length (word : string) (l : list string) :
  List.length (Py.emit word l) = pending word + List.length l.
Proof. destruct word; reflexivity. Qed.

Lemma pending_snoc (word : string) (c : ascii) :
  pending (word ++ String c "") = 1.
Proof. destruct word; reflexivity. Qed.

Lemma split_from_length_pending (s : string) :
  forall w1 w2, pending w1 = pending w2 ->
                List.length (Py.split_from w1 s) = List.length (Py.split_from w2 s).
Proof.
  induction s as [|c s IH]; intros w1 w2 H; simpl.
  - now rewrite !emit_length, H.
  - destruct (Py.isspace c).
    + now rewrite !emit_length, H.
    + apply IH. now rewrite !pending_snoc.
Qed.

Lemma split_from_length_lower (s : string) :
  forall word, pending word <= List.length (Py.split_from word s).
Proof.
  induction s as [|c s IH]; intros word; simpl.
  - rewrite emit_length. lia.
  - destruct (Py.isspace c).
    + rewrite emit_length. lia.
    + specialize (IH (word ++ String c "")). rewrite pending_snoc in IH.
      destruct word; cbn [pending]; lia.
Qed.

Lemma split_from_length_upper (s word : string) :
  List.length (Py.split_from word s)
  <= pending word + List.length (Py.split_from "" s).
Proof.
  destruct s as [|c s]; simpl.
  - rewrite emit_length. simpl. lia.
  - destruct (Py.isspace c).
    + rewrite emit_length. simpl. lia.
    + rewrite (split_from_length_pending s (word ++ String c "") (String c ""));
        [lia | apply pending_snoc].
Qed.

(** Cutting a string, or removing its blanks, does not add words. *)
Lemma split_from_take (n : nat) (s : string) :
  forall word,
    List.length (Py.split_from word (Py.take n s))
    <= List.length (Py.split_from word s).
Proof.
  revert s. induction n as [|n IH]; intros s word.
  - change (Py.take 0 s) with "". simpl. rewrite emit_length. simpl.
    pose proof (split_from_length_lower s word). lia.
  - destruct s as [|c s]; simpl; [lia|].
    destruct (Py.isspace c).
    + rewrite !emit_length. specialize (IH s ""). lia.
    + apply IH.
Qed.

Lemma split_from_remove (s : string) :
  forall word,
    List.length (Py.split_from word (Py.remove_char " " s))
    <= List.length (Py.split_from word s).
Proof.
  induction s as [|c s IH]; intros word; simpl; [lia|].
  destruct (Ascii.eqb_spec c " ") as [->|Hc].
  - change (Py.isspace " ") with true. cbv iota. rewrite emit_length.
    pose proof (split_from_length_upper (Py.remove_char " " s) word).
    specialize (IH ""). lia.
  - simpl. destruct (Py.isspace c).
    + rewrite !emit_length. specialize (IH ""). lia.
    + apply IH.
Qed.

Lemma split_no_space (w : string) :
  no_space w = true -> List.length (Py.split w) <= 1.
Proof.
  intros H. destruct w as [|c w]; [simpl; lia|].
  assert (Hw : Forall is_word [String c w]).
  { constructor; [split; [discriminate | exact H] | constructor]. }
  pose proof (split_concat_words _ Hw) as E. simpl String.concat in E.
  rewrite E. simpl. lia.
Qed.

(** What every abbreviation is like: a fixed point of [upper], without
    blanks, of at most one word. *)
Lemma generate_shape (company_name : string) :
  exists abbr,
    generate_company_abbreviation company_name = Ok abbr
    /\ Py.upper abbr = abbr
    /\ no_blank abbr = true
    /\ List.length (Py.split abbr) <= 1.
Proof.
  eexists. split; [apply generate_closed_form|].
  pose proof (split_words company_name) as Hw.
  assert (Hsmall : List.length (Py.split company_name) <= 1 ->
            List.length
              (Py.split (Py.upper (Py.take 6 (Py.remove_char " " company_name))))
            <= 1).
  { intros H. rewrite split_upper, length_map.
    pose proof (split_from_take 6 (Py.remove_char " " company_name) "").
    pose proof (split_from_remove company_name "").
    unfold Py.split in *. lia. }
  assert (Htake : forall n w, is_word w -> no_space (Py.take n w) = true).
  { intros n w [_ H]. now apply no_space_take. }
  destruct (Py.split company_name) as [|w1 [|w2 [|w3 rest]]];
    (split; [apply upper_idem|]).
  - split; [rewrite no_blank_upper; apply str_all_take, no_blank_remove|].
    apply Hsmall. simpl. lia.
  - split; [rewrite no_blank_upper; apply str_all_take, no_blank_remove|].
    apply Hsmall. simpl. lia.
  - assert (Hns : no_space (Py.upper (Py.take 3 w1 ++ Py.take 3 w2)) = true).
    { rewrite no_space_upper, no_space_append.
      rewrite (Htake 3 w1 (Forall_inv Hw)).
      now rewrite (Htake 3 w2 (Forall_inv (Forall_inv_tail Hw))). }
    split; [now apply no_space_no_blank | now apply split_no_space].
  - assert (Hns : no_space
                    (Py.upper (Py.take 3 w1 ++ Py.take 3 w2 ++ Py.take 1 w3))
                  = true).
    { rewrite no_space_upper, !no_space_append.
      rewrite (Htake 3 w1 (Forall_inv Hw)).
      rewrite (Htake 3 w2 (Forall_inv (Forall_inv_tail Hw))).
      now rewrite (Htake 1 w3 (Forall_inv (Forall_inv_tail (Forall_inv_tail Hw)))). }
    split; [now apply no_space_no_blank | now apply split_no_space].
Qed.

Lemma take_all (n : nat) (s : string) :
  String.length s <= n -> Py.take n s = s.
Proof.
  revert s. induction n as [|n IH]; intros [|c s]; simpl; intros H;
    try reflexivity; [lia|].
  rewrite IH; [reflexivity | lia].
Qed.

End Reabbreviation.

(** X10: abbreviating an abbreviation cuts it to six characters.  When the
    generator returns an abbreviation for some name, it returns for that
    abbreviation its first six characters; an abbreviation of at most six
    characters is returned as it is, one of seven loses its last. *)
Theorem X10_abbreviation_of_abbreviation :
  forall company_name abbr,
    generate_company_abbreviation company_name = Ok abbr ->
    generate_company_abbreviation abbr = Ok (Py.take 6 abbr)
    /\ (String.length abbr <= 6 -> generate_company_abbreviation abbr = Ok abbr).
Proof.
  intros company_name abbr H.
  destruct (generate_shape company_name) as (a & Hg & Hup & Hnb & Hlen).
  rewrite Hg in H. injection H as <-.
  assert (E : generate_company_abbreviation a = Ok (Py.take 6 a)).
  { rewrite generate_closed_form.
    destruct (Py.split a) as [|w1 [|w2 l]]; [| |simpl in Hlen; lia];
      now rewrite (remove_no_blank _ Hnb), <- take_upper, Hup. }
  split; [exact E|].
  intros Hle. rewrite E. now rewrite take_all.
Qed.

Lemma X10_abbreviation_of_abbreviation_witness :
  generate_company_abbreviation "ACMGLOL" = Ok "ACMGLO"
  /\ generate_company_abbreviation "TESBYK" = Ok "TESBYK".
Proof.
  split.
  - apply (X10_abbreviation_of_abbreviation "Acme Global Logistics" "ACMGLOL").
    reflexivity.
  - apply (X10_abbreviation_of_abbreviation "TEST BY KALAI" "TESBYK").
    + reflexivity.
    + simpl. lia.
Defined.

(** ** The lookup agent, the critic and the result record *)

Section RecordFacts.

Lemma take_append (a b : string) : Py.take (String.length a) (a ++ b) = a.
Proof. induction a as [|c a IH]; simpl; [now destruct b | now rewrite IH]. Qed.

Lemma drop_append (a b : string) : Py.drop (String.length a) (a ++ b) = b.
Proof. induction a as [|c a IH]; simpl; [now destruct b | exact IH]. Qed.

Lemma take_drop (n : nat) (s : string) : Py.take n s ++ Py.drop n s = s.
Proof.
  revert s. induction n as [|n IH]; intros [|c s]; simpl; try reflexivity.
  now rewrite IH.
Qed.

Lemma append_inj_l (p a b : string) : p ++ a = p ++ b -> a = b.
Proof.
  induction p as [|c p IH]; simpl; intros H; [exact H|].
  injection H as H. now apply IH.
Qed.

Lemma append_inj_r (s a b : string) : a ++ s = b ++ s -> a = b.
Proof.
  revert b. induction a as [|c a IH]; intros [|d b] H; simpl in H.
  - reflexivity.
  - apply (f_equal String.length) in H. simpl in H.
    rewrite length_append in H. lia.
  - apply (f_equal String.length) in H. simpl in H.
    rewrite length_append in H. lia.
  - injection H as -> H. f_equal. now apply IH.
Qed.

Lemma research_code_shape (country city : string) :
  let code := simulate_research_agent country city in
  String.length code = 5
  /\ no_lower (location_segment code) = true
  /\ no_blank (location_segment code) = true.
Proof.
  intros code.
  assert (H : In code ("UNK00" :: stored_codes UNLOCODE_DB))
    by apply research_in_codes.
  revert H. generalize code. clear code. intros code H.
  in_cases H; subst code; repeat split; reflexivity.
Qed.

End RecordFacts.

(** X11: the org_code splits back into its parts: for every code and
    company name the lookup agent returns an org_code whose last three
    characters are the returned segment and whose characters before them
    are the returned abbreviation. *)
Theorem X11_org_code_splits_back :
  forall unlocode company_name, exists org_code abbr segment,
    simulate_lookup_agent unlocode company_name = Ok (org_code, abbr, segment)
    /\ Py.last_chars 3 org_code = segment
    /\ Py.take (String.length org_code - 3) org_code = abbr.
Proof.
  intros unlocode company_name.
  destruct (lookup_closed_form unlocode company_name) as (abbr & _ & Hl).
  exists (abbr ++ location_segment unlocode), abbr, (location_segment unlocode).
  split; [exact Hl|].
  unfold Py.last_chars.
  rewrite length_append, location_segment_length.
  replace (String.length abbr + 3 - 3) with (String.length abbr) by lia.
  split; [apply drop_append | apply take_append].
Qed.

(** X12: a location code of five characters or more is its own beginning
    followed by the segment: the segment is cut from the end of the code,
    with nothing changed (for a five-character code, what follows the first
    two characters). *)
Theorem X12_segment_is_code_suffix :
  forall unlocode,
    5 <= String.length unlocode ->
    unlocode
    = Py.take (String.length unlocode - 3) unlocode ++ location_segment unlocode.
Proof.
  intros unlocode H. unfold location_segment.
  destruct (Nat.leb_spec 5 (String.length unlocode)); [|lia].
  unfold Py.last_chars. now rewrite take_drop.
Qed.

Lemma X12_segment_is_code_suffix_witness :
  "USLAX" = Py.take 2 "USLAX" ++ location_segment "USLAX".
Proof.
  apply (X12_segment_is_code_suffix "USLAX"). simpl. lia.
Defined.

(** X13: the critic's message determines the org_code: two org_codes with
    the same message are the same. *)
Theorem X13_critique_determines_org_code :
  forall a b,
    simulate_critic_agent a = simulate_critic_agent b -> a = b.
Proof.
  intros a b H. unfold simulate_critic_agent in H.
  apply append_inj_l in H. now apply append_inj_r in H.
Qed.

Lemma X13_critique_determines_org_code_witness :
  "TESBYKMRS" = "TESBYKMRS".
Proof.
  apply (X13_critique_determines_org_code "TESBYKMRS" "TESBYKMRS").
  reflexivity.
Defined.

(** X14: what every result record satisfies.  For every country, and every
    city and company name of ASCII characters, the orchestrator returns a
    record whose org_code is its abbreviation
    followed by its segment, with a code of 5 characters, a segment of 3
    and an org_code of 3 to 10 characters; the org_code has no lowercase
    letter and no blank; the city is the input city in uppercase, with its
    length and so its outer whitespace kept; country and company name are
    the inputs. *)
Theorem X14_result_record_invariant :
  forall country city company_name,
    is_ascii city = true -> is_ascii company_name = true ->
    exists out,
    lead_agent_orchestrate country city company_name = Ok out
    /\ final_output.org_code out
       = final_output.company_abbr out ++ final_output.location_code out
    /\ String.length (final_output.unlocode out) = 5
    /\ String.length (final_output.location_code out) = 3
    /\ 3 <= String.length (final_output.org_code out) <= 10
    /\ no_lower (final_output.org_code out) = true
    /\ no_blank (final_output.org_code out) = true
    /\ no_lower (final_output.city out) = true
    /\ String.length (final_output.city out) = String.length city
    /\ final_output.country out = country
    /\ final_output.company_name out = company_name.
Proof.
  intros country city company_name _ _.
  destruct (orchestrate_closed_form country city company_name)
    as (abbr & Hg & Ho).
  destruct (research_code_shape country city) as (Hlen & Hlow & Hbl).
  destruct (generate_length company_name) as (abbr1 & Hg1 & _ & Hhi).
  destruct (generate_shape company_name) as (abbr2 & Hg2 & Hup & Hnb & _).
  rewrite Hg in Hg1, Hg2. injection Hg1 as <-. injection Hg2 as <-.
  eexists. split; [exact Ho|]. cbn [final_output.org_code
    final_output.company_abbr final_output.location_code final_output.unlocode
    final_output.city final_output.country final_output.company_name].
  split; [reflexivity|]. split; [exact Hlen|].
  split; [apply location_segment_length|].
  split.
  { rewrite length_append, location_segment_length.
    destruct (3 <=? List.length (Py.split company_name)); lia. }
  split.
  { unfold no_lower. rewrite str_all_append. fold (no_lower abbr).
    rewrite <- Hup, no_lower_upper. exact Hlow. }
  split.
  { unfold no_blank. rewrite str_all_append. fold (no_blank abbr).
    rewrite Hnb. exact Hbl. }
  split; [apply no_lower_upper|].
  split; [apply length_upper|]. split; reflexivity.
Qed.

Lemma X14_result_record_invariant_witness :
  exists out,
    lead_agent_orchestrate "Germany" " berlin" "Acme Global Logistics" = Ok out
    /\ final_output.org_code out = "ACMGLOLBER"
    /\ String.length (final_output.org_code out) = 10
    /\ final_output.city out = " BERLIN".
Proof.
  destruct (X14_result_record_invariant
              "Germany" " berlin" "Acme Global Logistics" eq_refl eq_refl)
    as (out & Ho & _).
  exists out. split; [exact Ho|].
  vm_compute in Ho. injection Ho as <-. repeat split; reflexivity.
Defined.

(** X15: an unresolved lookup does not stop the pipeline and is not
    flagged: when the lookup returns the sentinel, the orchestrator
    returns a record with code UNK00 and segment K00, an org_code that is
    the abbreviation followed by K00, and a critique that begins with
    Validated. *)
Theorem X15_unresolved_lookup_is_validated :
  forall country city company_name,
    simulate_research_agent country city = "UNK00" ->
    exists out,
      lead_agent_orchestrate country city company_name = Ok out
      /\ final_output.unlocode out = "UNK00"
      /\ final_output.location_code out = "K00"
      /\ final_output.org_code out = final_output.company_abbr out ++ "K00"
      /\ prefix "Validated: " (final_output.critique out) = true.
Proof.
  intros country city company_name H.
  destruct (orchestrate_closed_form country city company_name)
    as (abbr & _ & Ho).
  rewrite H in Ho. eexists. split; [exact Ho|].
  repeat split; reflexivity.
Qed.

Lemma X15_unresolved_lookup_is_validated_witness :
  exists out,
    lead_agent_orchestrate "Spain" "Madrid" "Acme Global" = Ok out
    /\ final_output.unlocode out = "UNK00"
    /\ final_output.location_code out = "K00"
    /\ final_output.org_code out = final_output.company_abbr out ++ "K00"
    /\ prefix "Validated: " (final_output.critique out) = true.
Proof.
  apply (X15_unresolved_lookup_is_validated "Spain" "Madrid" "Acme Global").
  reflexivity.
Defined.

(** X16: the org_code does not depend on the case of the city and of an
    ASCII company name, nor on whitespace around the city: with the city
    uppercased and padded and the name uppercased, the orchestrator returns
    the same code, abbreviation, segment, org_code and critique.  The city
    of the record keeps the padding. *)
Theorem X16_org_code_ignores_case_and_padding :
  forall country city company_name pre post,
    is_ascii company_name = true ->
    all_space pre = true -> all_space post = true ->
    exists out out',
      lead_agent_orchestrate country city company_name = Ok out
      /\ lead_agent_orchestrate country (pre ++ Py.upper city ++ post)
           (Py.upper company_name) = Ok out'
      /\ final_output.unlocode out' = final_output.unlocode out
      /\ final_output.company_abbr out' = final_output.company_abbr out
      /\ final_output.location_code out' = final_output.location_code out
      /\ final_output.org_code out' = final_output.org_code out
      /\ final_output.critique out' = final_output.critique out
      /\ final_output.city out' = pre ++ final_output.city out ++ post.
Proof.
  intros country city company_name pre post _ Hpre Hpost.
  destruct (orchestrate_closed_form country city company_name)
    as (abbr & Hg & Ho).
  destruct (orchestrate_closed_form country (pre ++ Py.upper city ++ post)
              (Py.upper company_name)) as (abbr' & Hg' & Ho').
  rewrite generate_upper, Hg in Hg'. injection Hg' as <-.
  unfold simulate_research_agent, research_in in Ho'.
  rewrite (normalize_pad city pre post Hpre Hpost) in Ho'.
  fold (research_in UNLOCODE_DB country city) in Ho'.
  fold (simulate_research_agent country city) in Ho'.
  eexists. eexists. split; [exact Ho|]. split; [exact Ho'|].
  cbn [final_output.org_code final_output.company_abbr
    final_output.location_code final_output.unlocode final_output.city
    final_output.critique].
  repeat split.
  rewrite !upper_append, upper_idem.
  now rewrite (upper_all_space _ Hpre), (upper_all_space _ Hpost).
Qed.

Lemma X16_org_code_ignores_case_and_padding_witness :
  exists out out',
    lead_agent_orchestrate "France" "marseille" "Test by Kalai" = Ok out
    /\ lead_agent_orchestrate "France" (" " ++ "MARSEILLE" ++ "  ")
         "TEST BY KALAI" = Ok out'
    /\ final_output.org_code out' = final_output.org_code out
    /\ final_output.city out' = " " ++ final_output.city out ++ "  ".
Proof.
  destruct (X16_org_code_ignores_case_and_padding
              "France" "marseille" "Test by Kalai" " " "  "
              eq_refl eq_refl eq_refl)
    as (out & out' & H1 & H2 & _ & _ & _ & H3 & _ & H4).
  exists out, out'. repeat split; assumption.
Defined.

(** ** The country list *)

Section CountryList.

(** The order of [sorted] on strings. *)
Lemma compare_as_OT (a b : string) :
  String.compare a b = OrdersEx.String_as_OT.compare a b.
Proof.
  reflexivity.
Qed.

Lemma str_lt_trans (a b c : string) : str_lt a b -> str_lt b c -> str_lt a c.
Proof.
  unfold str_lt. rewrite !compare_as_OT.
  apply (@RelationClasses.StrictOrder_Transitive _ _
           OrdersEx.String_as_OT.lt_strorder).
Qed.

Lemma str_lt_irrefl (a : string) : ~ str_lt a a.
Proof.
  unfold str_lt. rewrite compare_as_OT.
  apply (@RelationClasses.StrictOrder_Irreflexive _ _
           OrdersEx.String_as_OT.lt_strorder).
Qed.

Lemma compare_gt_lt (a b : string) : String.compare a b = Gt -> str_lt b a.
Proof.
  unfold str_lt. intros H. rewrite String.compare_antisym, H. reflexivity.
Qed.

Lemma in_insert_sorted (x y : string) (l : list string) :
  In x (Py.insert_sorted y l) <-> x = y \/ In x l.
Proof.
  induction l as [|z l IH]; simpl.
  - intuition.
  - destruct (String.compare y z) eqn:E; simpl.
    + apply String.compare_eq_iff in E. subst z. intuition.
    + intuition.
    + rewrite IH. intuition.
Qed.

Lemma in_sorted_set (x : string) (l : list string) :
  In x (Py.sorted_set l) <-> In x l.
Proof.
  induction l as [|y l IH]; simpl; [reflexivity|].
  rewrite in_insert_sorted, IH. intuition.
Qed.

Lemma insert_sorted_sorted (x : string) (l : list string) :
  StronglySorted str_lt l -> StronglySorted str_lt (Py.insert_sorted x l).
Proof.
  induction 1 as [|y l Hs IH Hy]; simpl.
  - constructor; constructor.
  - destruct (String.compare x y) eqn:E.
    + now constructor.
    + constructor; [now constructor|].
      constructor; [exact E|].
      eapply Forall_impl; [|exact Hy]. intros z Hz.
      now apply (str_lt_trans x y z).
    + constructor; [exact IH|].
      apply Forall_forall. intros z Hz.
      apply in_insert_sorted in Hz as [->|Hz].
      * now apply compare_gt_lt.
      * now apply (proj1 (Forall_forall _ _) Hy).
Qed.

Lemma sorted_set_sorted (l : list string) :
  StronglySorted str_lt (Py.sorted_set l).
Proof.
  induction l as [|x l IH]; simpl; [constructor|].
  now apply insert_sorted_sorted.
Qed.

Lemma sorted_nodup (l : list string) : StronglySorted str_lt l -> NoDup l.
Proof.
  induction 1 as [|x l Hs IH Hx]; constructor; [|exact IH].
  intros Hin. apply (str_lt_irrefl x).
  now apply (proj1 (Forall_forall _ _) Hx).
Qed.

Lemma list_in_spec (x : string) (l : list string) :
  Py.list_in x l = true <-> In x l.
Proof.
  unfold Py.list_in. rewrite existsb_exists. split.
  - intros (y & Hy & E). apply String.eqb_eq in E. now subst.
  - intros H. exists x. split; [exact H | apply String.eqb_refl].
Qed.

Lemma in_append_missing (x : string) (keys : list string) :
  forall fetched,
    In x (append_missing fetched keys) <-> In x fetched \/ In x keys.
Proof.
  unfold append_missing.
  induction keys as [|k keys IH]; intros fetched; simpl; [intuition|].
  rewrite IH. destruct (Py.list_in k fetched) eqn:E.
  - apply list_in_spec in E. intuition. subst. now left.
  - rewrite in_app_iff. simpl. intuition.
Qed.

End CountryList.

(** X17: the select box offers exactly the fetched countries and the
    countries of the database: a country is among the options if and only
    if it was fetched or is a key of UNLOCODE_DB.  So France, United
    States, Germany and China are offered whatever the fetch returned. *)
Theorem X17_options_are_fetched_and_known :
  forall fetched c,
    In c (fetched_countries fetched) <->
    In c fetched \/ In c (map fst UNLOCODE_DB).
Proof.
  intros fetched c. unfold fetched_countries.
  destruct fetched as [|f fetched]; [simpl; intuition|].
  rewrite in_sorted_set. apply in_append_missing.
Qed.

(** X18: when the fetch returned at least one country, the options are in
    strictly increasing order, hence without duplicates.  When it returned
    none, the options are the keys of UNLOCODE_DB in table order, which is
    not sorted. *)
Theorem X18_options_sorted_unless_fallback :
  (forall fetched,
      fetched <> [] ->
      StronglySorted str_lt (fetched_countries fetched)
      /\ NoDup (fetched_countries fetched))
  /\ fetched_countries [] = ["France"; "United States"; "Germany"; "China"]
  /\ ~ StronglySorted str_lt (fetched_countries []).
Proof.
  split; [|split].
  - intros fetched H. destruct fetched as [|f fetched]; [congruence|].
    unfold fetched_countries.
    pose proof (sorted_set_sorted
                  (append_missing (f :: fetched) (map fst UNLOCODE_DB))) as Hs.
    split; [exact Hs | now apply sorted_nodup].
  - reflexivity.
  - intros H. simpl in H.
    apply StronglySorted_inv in H as [H _].
    apply StronglySorted_inv in H as [_ H].
    apply Forall_inv in H. discriminate H.
Qed.

Lemma X18_options_sorted_unless_fallback_witness :
  StronglySorted str_lt (fetched_countries ["Spain"; "France"; "Spain"])
  /\ fetched_countries ["Spain"; "France"; "Spain"]
     = ["China"; "France"; "Germany"; "Spain"; "United States"].
Proof.
  split; [|reflexivity].
  apply (proj1 X18_options_sorted_unless_fallback ["Spain"; "France"; "Spain"]).
  discriminate.
Defined.

(** X19: what the fetch returns, for a page whose anchors have text and
    href of ASCII characters.  A name is in the result exactly when the
    status code is 200 and some anchor whose href contains
    service.unece.org has that name as text, the name being non-empty and
    made of letters and whitespace only. *)
Theorem X19_fetched_names :
  forall status_code anchors c,
    Forall (fun a => ascii_anchor a = true) anchors ->
    (In c (fetch_countries_from_unece (Response status_code anchors)) <->
     status_code = 200
     /\ exists a, In a anchors /\ unece_href (href a) = true
                  /\ text a = c /\ country_like c = true).
Proof.
  intros status_code anchors c _.
  unfold fetch_countries_from_unece.
  destruct (Nat.eqb_spec status_code 200) as [->|Hs]; simpl negb; cbv iota.
  - rewrite in_sorted_set, filter_In, in_map_iff. split.
    + intros [(a & Ha & Hin) Hc]. apply filter_In in Hin as [Hin Hh].
      split; [reflexivity|]. exists a. now repeat split.
    + intros (_ & a & Hin & Hh & Ht & Hc). split; [|exact Hc].
      exists a. split; [exact Ht|]. apply filter_In. now split.
  - split; [intros [] | intros [E _]; contradiction].
Qed.

Lemma X19_fetched_names_witness :
  In "United States"
    (fetch_countries_from_unece
       (Response 200
          [ {| href := Some "https://unece.org/about"; text := "About" |};
            {| href := Some "https://service.unece.org/locode/us.htm";
               text := "United States" |};
            {| href := Some "https://service.unece.org/locode/2023";
               text := "Release 2023" |} ]))
  /\ ~ In "Release 2023"
        (fetch_countries_from_unece
           (Response 200
              [ {| href := Some "https://unece.org/about"; text := "About" |};
                {| href := Some "https://service.unece.org/locode/us.htm";
                   text := "United States" |};
                {| href := Some "https://service.unece.org/locode/2023";
                   text := "Release 2023" |} ])).
Proof.
  split.
  - apply X19_fetched_names.
    + repeat (apply Forall_cons; [reflexivity|]). apply Forall_nil.
    + split; [reflexivity|]. eexists. split; [right; left; reflexivity|].
      repeat split; reflexivity.
  - vm_compute. intros [H|[]]. discriminate H.
Defined.

(** X20: for every outcome of the request, the fetched list is in strictly
    increasing order and without duplicates, however often and in whatever
    order the page links a country. *)
Theorem X20_fetched_list_sorted :
  forall outcome,
    StronglySorted str_lt (fetch_countries_from_unece outcome)
    /\ NoDup (fetch_countries_from_unece outcome).
Proof.
  intros outcome.
  assert (H : StronglySorted str_lt (fetch_countries_from_unece outcome)).
  { destruct outcome as [|status_code anchors]; simpl; [constructor|].
    destruct (negb (status_code =? 200)); [constructor|].
    apply sorted_set_sorted. }
  split; [exact H | now apply sorted_nodup].
Qed.

(** X21: a failed fetch falls back to the database: when the request
    raises, and when the status code is not 200, whatever the page, the
    fetched list is empty and the options are the keys of UNLOCODE_DB. *)
Theorem X21_failed_fetch_falls_back :
  fetched_countries (fetch_countries_from_unece RequestError)
  = map fst UNLOCODE_DB
  /\ forall status_code anchors,
       status_code <> 200 ->
       fetch_countries_from_unece (Response status_code anchors) = []
       /\ fetched_countries
            (fetch_countries_from_unece (Response status_code anchors))
          = map fst UNLOCODE_DB.
Proof.
  split; [reflexivity|].
  intros status_code anchors H.
  assert (E : fetch_countries_from_unece (Response status_code anchors) = []).
  { unfold fetch_countries_from_unece.
    destruct (Nat.eqb_spec status_code 200); [contradiction | reflexivity]. }
  split; [exact E | now rewrite E].
Qed.

Lemma X21_failed_fetch_falls_back_witness :
  fetched_countries
    (fetch_countries_from_unece
       (Response 404
          [ {| href := Some "https://service.unece.org/trade/locode/es.htm";
               text := "Spain" |} ]))
  = ["France"; "United States"; "Germany"; "China"].
Proof.
  apply (proj2 X21_failed_fetch_falls_back 404). discriminate.
Defined.
